(** * SpriteMatic: the quality-gated sprite generation core

    A shallow embedding of the backend services
    [apps/backend/src/services/sprite.service.ts] and
    [apps/backend/src/services/quality.service.ts].

    Conventions of the embedding.
    - JavaScript numbers that hold counts, pixel coordinates and byte
      values are [Z] (or [nat] for lengths and attempt indices); numbers
      that hold ratios, scores and money are exact rationals [Q].  Every
      concrete run evaluated below only meets dyadic or short decimal
      values, on which the rational result and the IEEE double result of
      the source agree.
    - Strings are [string]; a character is one code unit.
    - A [Buffer] of raw RGBA samples is a [list Z]; reading past its end
      gives [None] (JavaScript [undefined]) and writing past its end is
      ignored, as for a Node.js [Buffer].
    - Awaited collaborators (database, image backend, object storage) are
      replaced by a [World] record that fixes what each call answers. *)

From Stdlib Require Import ZArith QArith Qminmax Qround Qabs List String Ascii Bool Lia Arith.
From Stdlib Require Import Decimal DecimalString DecimalZ.
From Stdlib Require Import Lqa.
Import ListNotations.

(** ** JavaScript string helpers *)

Module JsString.
Local Open Scope string_scope.

(** Code units matched by [\s] and removed by [String.prototype.trim]
    (restricted to one-byte code units). *)
Definition isWhiteSpace (c : ascii) : bool :=
  let n := nat_of_ascii c in
  ((9 <=? n) && (n <=? 13))%nat || (n =? 32)%nat || (n =? 160)%nat.

Fixpoint trimStart (s : string) : string :=
  match s with
  | EmptyString => EmptyString
  | String c rest => if isWhiteSpace c then trimStart rest else s
  end.

(** [trimEnd] drops the trailing white space: a character is kept when
    something other than white space follows or when it is not white
    space itself. *)
Fixpoint trimEnd (s : string) : string :=
  match s with
  | EmptyString => EmptyString
  | String c rest =>
      match trimEnd rest with
      | EmptyString => if isWhiteSpace c then EmptyString else String c EmptyString
      | kept => String c kept
      end
  end.

Definition trim (s : string) : string := trimEnd (trimStart s).

(** [value.replace(/\s+/g, " ")]: every maximal run of white space becomes
    one space. *)
Fixpoint collapseFrom (inRun : bool) (s : string) : string :=
  match s with
  | EmptyString => EmptyString
  | String c rest =>
      if isWhiteSpace c
      then if inRun then collapseFrom true rest
           else String " "%char (collapseFrom true rest)
      else String c (collapseFrom false rest)
  end.

Definition collapseWhiteSpace (s : string) : string := collapseFrom false s.

Definition lowerChar (c : ascii) : ascii :=
  let n := nat_of_ascii c in
  if ((65 <=? n) && (n <=? 90))%nat then ascii_of_nat (n + 32) else c.

Fixpoint toLowerCase (s : string) : string :=
  match s with
  | EmptyString => EmptyString
  | String c rest => String (lowerChar c) (toLowerCase rest)
  end.

(** [hay.includes(needle)] *)
Fixpoint includes (needle hay : string) : bool :=
  String.prefix needle hay ||
  match hay with
  | EmptyString => false
  | String _ rest => includes needle rest
  end.

(** [s.slice(0, n)] for a non-negative [n]. *)
Definition slice0 (n : nat) (s : string) : string := String.substring 0 n s.

Definition jsLength (s : string) : Z := Z.of_nat (String.length s).

(** [parts.join(sep)] *)
Fixpoint join (sep : string) (parts : list string) : string :=
  match parts with
  | [] => ""
  | [p] => p
  | p :: rest => p ++ sep ++ join sep rest
  end.

End JsString.

(** ** JavaScript number helpers *)

Module JsNum.
Local Open Scope Q_scope.

Definition Qnat (n : nat) : Q := inject_Z (Z.of_nat n).

(** [x < y] and [x <= y] as the boolean tests of the source. *)
Definition Qltb (x y : Q) : bool := negb (Qle_bool y x).
Definition Qleb (x y : Q) : bool := Qle_bool x y.

(** [const clamp = (value, min, max) => Math.min(max, Math.max(min, value))] *)
Definition clamp (value lo hi : Q) : Q := Qmin hi (Qmax lo value).

(** [Math.round]: the nearest integer, halves going up. *)
Definition mathRound (x : Q) : Z := Qfloor (x + (1#2)).

(** [Number(value.toFixed(decimals))]: the nearest multiple of
    [10^-decimals], halves going away from zero. *)
Definition toFixed (decimals : nat) (value : Q) : Q :=
  let scale := inject_Z (10 ^ Z.of_nat decimals) in
  let n := Qfloor (Qabs value * scale + (1#2)) in
  let r := inject_Z n / scale in
  if Qltb value 0 then - r else r.

(** [const round = (value, decimals = 4) => Number(value.toFixed(decimals))] *)
Definition round (value : Q) (decimals : nat) : Q := toFixed decimals value.

(** Decimal rendering of an integer, as [String(n)] gives it. *)
Definition decimalOfZ (z : Z) : string :=
  DecimalString.NilZero.string_of_int (Z.to_int z).

(** [value.toFixed(1)] as text, for a non-negative [value]. *)
Definition toFixed1Text (value : Q) : string :=
  let n := Qfloor (Qabs value * 10 + (1#2)) in
  ((if Qltb value 0 then "-" else "") ++
   decimalOfZ (n / 10) ++ "." ++ decimalOfZ (n mod 10))%string.

End JsNum.

(** ** Quality scorer ([quality.service.ts]) *)

Module Quality.
Import JsNum.
Local Open Scope Q_scope.

Record QualityInput := {
  spriteSize : Z;
  columns : Z;
  rows : Z;
  frameCount : Z;
  animationType : option string;
  styleIntensity : option Q;
  minScore : option Q
}.

Record QualityThresholds := {
  th_minScore : Q;
  minTransparentRatio : Q;
  maxTranslucentRatio : Q;
  maxOuterEdgeOpaqueRatio : Q;
  th_maxBoundaryBleedRatio : Q;
  minFrameFillRatio : Q;
  maxFrameFillRatio : Q;
  th_maxAnchorDriftPx : Q;
  th_maxHorizontalDriftPx : Q;
  maxScaleVarianceRatio : Q;
  minMeanConsecutiveDelta : Q;
  minDistinctPairRatio : Q;
  minQuantizedColorCount : Q;
  maxQuantizedColorCount : Q
}.

Record QualityMetrics := {
  analyzedFrameCount : Z;
  expectedFrameCount : Z;
  transparentPixelRatio : Q;
  translucentPixelRatio : Q;
  quantizedColorCount : nat;
  outerEdgeOpaqueRatio : Q;
  maxBoundaryBleedRatio : Q;
  emptyFrameCount : nat;
  overcrowdedFrameCount : nat;
  clippedFrameCount : nat;
  maxAnchorDriftPx : Q;
  maxHorizontalDriftPx : Q;
  maxVerticalDriftPx : Q;
  scaleVarianceRatio : Q;
  meanConsecutiveFrameDelta : Q;
  minConsecutiveFrameDelta : Q;
  maxConsecutiveFrameDelta : Q;
  distinctPairRatio : Q
}.

Record QualityDiagnostics := {
  score : Q;
  thresholds : QualityThresholds;
  metrics : QualityMetrics
}.

Record QualityResult := {
  ok : bool;
  reasons : list string;
  width : Z;
  height : Z;
  diagnostics : QualityDiagnostics
}.

Record MotionThresholds := {
  mt_minMeanConsecutiveDelta : Q;
  mt_minDistinctPairRatio : Q;
  driftToleranceMultiplier : Q
}.

Definition motionThresholdForAnimation (animationType : option string) : MotionThresholds :=
  let normalized :=
    JsString.toLowerCase (JsString.trim (match animationType with Some a => a | None => ""%string end)) in
  if JsString.includes "idle" normalized then
    {| mt_minMeanConsecutiveDelta := 3 # 1000;
       mt_minDistinctPairRatio := 2 # 10;
       driftToleranceMultiplier := 1 |}
  else if JsString.includes "walk" normalized then
    {| mt_minMeanConsecutiveDelta := 1 # 100;
       mt_minDistinctPairRatio := 4 # 10;
       driftToleranceMultiplier := 14 # 10 |}
  else if JsString.includes "run" normalized
       || JsString.includes "attack" normalized
       || JsString.includes "jump" normalized
       || JsString.includes "dash" normalized
       || JsString.includes "sprint" normalized then
    {| mt_minMeanConsecutiveDelta := 12 # 1000;
       mt_minDistinctPairRatio := 45 # 100;
       driftToleranceMultiplier := 15 # 10 |}
  else
    {| mt_minMeanConsecutiveDelta := 8 # 1000;
       mt_minDistinctPairRatio := 35 # 100;
       driftToleranceMultiplier := 1 |}.

Definition effectiveMinScore (input : QualityInput) : Q :=
  match minScore input with Some m => m | None => 82 end.

Definition effectiveStyleIntensity (input : QualityInput) : Q :=
  match styleIntensity input with Some s => s | None => 70 end.

(** [clamp(frameCount, 1, totalSlots)] *)
Definition analyzedFrames (input : QualityInput) : Z :=
  Z.min (columns input * rows input) (Z.max 1 (frameCount input)).

(** The threshold set of one call (lines 498-526 of the scorer). *)
Definition deriveThresholds (input : QualityInput) : QualityThresholds :=
  let motionThresholds := motionThresholdForAnimation (animationType input) in
  let size := inject_Z (spriteSize input) in
  let baseAnchorDriftPx := Z.max 3 (mathRound (size * (16 # 100))) in
  let baseHorizontalDriftPx := Z.max 2 (mathRound (size * (16 # 100))) in
  let mult := driftToleranceMultiplier motionThresholds in
  let perFrameColorBudget :=
    clamp (inject_Z (mathRound (20 + effectiveStyleIntensity input * (2 # 10)))) 24 44 in
  let analyzed := inject_Z (analyzedFrames input) in
  {| th_minScore := effectiveMinScore input;
     minTransparentRatio := 15 # 100;
     maxTranslucentRatio := 3 # 100;
     maxOuterEdgeOpaqueRatio := 16 # 100;
     th_maxBoundaryBleedRatio := 82 # 100;
     minFrameFillRatio := 15 # 1000;
     maxFrameFillRatio := 72 # 100;
     th_maxAnchorDriftPx :=
       inject_Z (Z.max baseAnchorDriftPx (mathRound (inject_Z baseAnchorDriftPx * mult)));
     th_maxHorizontalDriftPx :=
       inject_Z (Z.max baseHorizontalDriftPx (mathRound (inject_Z baseHorizontalDriftPx * mult)));
     maxScaleVarianceRatio := 45 # 100;
     minMeanConsecutiveDelta := mt_minMeanConsecutiveDelta motionThresholds;
     minDistinctPairRatio := mt_minDistinctPairRatio motionThresholds;
     minQuantizedColorCount := inject_Z (Z.max 20 (mathRound (analyzed * 3)));
     maxQuantizedColorCount := clamp (analyzed * perFrameColorBudget) 120 1600 |}.

(** The sixteen deductions of [scoreFromPenalties], in the order in which
    the source subtracts them from the running score. *)
Section Penalties.
Variable thresholds : QualityThresholds.
Variable metrics : QualityMetrics.
Variable hasDimensionMismatch hasTransparency : bool.

Definition penaltyDimension : Q := if hasDimensionMismatch then 28 else 0.

Definition penaltyNoTransparency : Q := if negb hasTransparency then 24 else 0.

Definition penaltyTransparentDeficit : Q :=
  if Qltb (transparentPixelRatio metrics) (minTransparentRatio thresholds) then
    let deficit :=
      (minTransparentRatio thresholds - transparentPixelRatio metrics)
      / minTransparentRatio thresholds in
    clamp (deficit * 20) 0 20
  else 0.

Definition penaltyTranslucentExcess : Q :=
  if Qltb (maxTranslucentRatio thresholds) (translucentPixelRatio metrics) then
    let excess :=
      (translucentPixelRatio metrics - maxTranslucentRatio thresholds)
      / Qmax (1 # 1000) (maxTranslucentRatio thresholds) in
    clamp (excess * 18) 0 18
  else 0.

Definition penaltyOuterEdge : Q := clamp (outerEdgeOpaqueRatio metrics * 90) 0 18.

Definition penaltyBoundaryBleed : Q :=
  if Qltb (th_maxBoundaryBleedRatio thresholds) (maxBoundaryBleedRatio metrics) then
    let excess := maxBoundaryBleedRatio metrics - th_maxBoundaryBleedRatio thresholds in
    clamp ((excess / Qmax (1 # 100) (1 - th_maxBoundaryBleedRatio thresholds)) * 14) 0 14
  else 0.

Definition penaltyEmptyFrames : Q := Qmin 30 (Qnat (emptyFrameCount metrics) * 6).
Definition penaltyOvercrowdedFrames : Q := Qmin 20 (Qnat (overcrowdedFrameCount metrics) * 4).
Definition penaltyClippedFrames : Q := Qmin 30 (Qnat (clippedFrameCount metrics) * 5).

Definition penaltyAnchorDrift : Q :=
  if Qltb (th_maxAnchorDriftPx thresholds) (maxAnchorDriftPx metrics) then
    let excess := maxAnchorDriftPx metrics - th_maxAnchorDriftPx thresholds in
    clamp ((excess / Qmax 1 (th_maxAnchorDriftPx thresholds)) * 16) 0 16
  else 0.

Definition penaltyHorizontalDrift : Q :=
  if Qltb (th_maxHorizontalDriftPx thresholds) (maxHorizontalDriftPx metrics) then
    let excess := maxHorizontalDriftPx metrics - th_maxHorizontalDriftPx thresholds in
    clamp ((excess / Qmax 1 (th_maxHorizontalDriftPx thresholds)) * 10) 0 10
  else 0.

Definition penaltyScaleVariance : Q :=
  if Qltb (maxScaleVarianceRatio thresholds) (scaleVarianceRatio metrics) then
    let excess := scaleVarianceRatio metrics - maxScaleVarianceRatio thresholds in
    clamp ((excess / Qmax (1 # 100) (maxScaleVarianceRatio thresholds)) * 12) 0 12
  else 0.

Definition penaltyLowMotion : Q :=
  if Qltb (meanConsecutiveFrameDelta metrics) (minMeanConsecutiveDelta thresholds) then
    let deficit :=
      (minMeanConsecutiveDelta thresholds - meanConsecutiveFrameDelta metrics)
      / Qmax (1 # 1000) (minMeanConsecutiveDelta thresholds) in
    clamp (deficit * 14) 0 14
  else 0.

Definition penaltyNearDuplicates : Q :=
  if Qltb (distinctPairRatio metrics) (minDistinctPairRatio thresholds) then
    let deficit :=
      (minDistinctPairRatio thresholds - distinctPairRatio metrics)
      / Qmax (1 # 1000) (minDistinctPairRatio thresholds) in
    clamp (deficit * 12) 0 12
  else 0.

Definition penaltyColorDeficit : Q :=
  if Qltb (Qnat (quantizedColorCount metrics)) (minQuantizedColorCount thresholds) then
    let deficit :=
      (minQuantizedColorCount thresholds - Qnat (quantizedColorCount metrics))
      / Qmax 1 (minQuantizedColorCount thresholds) in
    clamp (deficit * 8) 0 8
  else 0.

Definition penaltyColorExcess : Q :=
  if Qltb (maxQuantizedColorCount thresholds) (Qnat (quantizedColorCount metrics)) then
    let excess :=
      (Qnat (quantizedColorCount metrics) - maxQuantizedColorCount thresholds)
      / Qmax 1 (maxQuantizedColorCount thresholds) in
    clamp (excess * 8) 0 8
  else 0.

Definition penalties : list Q :=
  [ penaltyDimension; penaltyNoTransparency; penaltyTransparentDeficit;
    penaltyTranslucentExcess; penaltyOuterEdge; penaltyBoundaryBleed;
    penaltyEmptyFrames; penaltyOvercrowdedFrames; penaltyClippedFrames;
    penaltyAnchorDrift; penaltyHorizontalDrift; penaltyScaleVariance;
    penaltyLowMotion; penaltyNearDuplicates; penaltyColorDeficit;
    penaltyColorExcess ].

(** [let score = 100; score -= ...; score -= ...] *)
Definition penalizedScore : Q := fold_left Qminus penalties 100.

Definition scoreFromPenalties (reasons : list string) : Q :=
  let score := penalizedScore in
  let score :=
    if (List.length reasons =? 0)%nat then Qmax score (th_minScore thresholds) else score in
  round (clamp score 0 100) 1.
End Penalties.


(** What the pixel passes of [validateSpriteQuality] (lines 482-842)
    hand to its scoring tail: the reasons recorded by the individual
    checks, the rounded metrics and the two flags. *)
Record PixelAnalysis := {
  pa_width : Z;
  pa_height : Z;
  pa_reasons : list string;
  pa_metrics : QualityMetrics;
  pa_hasTransparency : bool
}.

Definition hasDimensionMismatchOf (input : QualityInput) (px : PixelAnalysis) : bool :=
  negb (pa_width px =? spriteSize input * columns input)%Z
  || negb (pa_height px =? spriteSize input * rows input)%Z.

(** [validateSpriteQuality], from the call of [scoreFromPenalties] on
    (lines 844-869). *)
Definition validateSpriteQuality (input : QualityInput) (px : PixelAnalysis) : QualityResult :=
  let minScore := effectiveMinScore input in
  let thresholds := deriveThresholds input in
  let reasons := pa_reasons px in
  let score :=
    scoreFromPenalties thresholds (pa_metrics px)
      (hasDimensionMismatchOf input px) (pa_hasTransparency px) reasons in
  let reasons :=
    if Qltb score minScore
    then reasons ++ [("Quality score " ++ toFixed1Text score ++ " is below minimum "
                      ++ toFixed1Text minScore)%string]
    else reasons in
  {| ok := (List.length reasons =? 0)%nat && Qleb minScore score;
     reasons := reasons;
     width := pa_width px;
     height := pa_height px;
     diagnostics :=
       {| score := score; thresholds := thresholds; metrics := pa_metrics px |} |}.

End Quality.

(** ** Request fingerprint ([fingerprintForGeneration]) *)

(** Node's [crypto] module: the SHA-256 digest of a text, as 32 bytes. *)
Class Crypto := { sha256Digest : string -> list Z }.

Module Fingerprint.
Import JsNum.
Local Open Scope string_scope.

Definition hexDigit (n : Z) : string :=
  String.substring (Z.to_nat n) 1 "0123456789abcdef".

(** [digest("hex")] *)
Definition hexOfBytes (bytes : list Z) : string :=
  String.concat "" (map (fun b => hexDigit (b / 16) ++ hexDigit (b mod 16)) bytes).

Definition sha256Hex `{Crypto} (text : string) : string :=
  hexOfBytes (sha256Digest text).

(** [JSON.stringify] of a string: quotes, backslashes and control
    characters are escaped. *)
Definition quote : string := String (ascii_of_nat 34) "".
Definition backslash : string := String (ascii_of_nat 92) "".

Definition jsonEscapeChar (c : ascii) : string :=
  let n := nat_of_ascii c in
  if (n =? 34)%nat then backslash ++ quote
  else if (n =? 92)%nat then backslash ++ backslash
  else if (n =? 8)%nat then backslash ++ "b"
  else if (n =? 9)%nat then backslash ++ "t"
  else if (n =? 10)%nat then backslash ++ "n"
  else if (n =? 12)%nat then backslash ++ "f"
  else if (n =? 13)%nat then backslash ++ "r"
  else if (n <? 32)%nat then
    backslash ++ "u00" ++ hexDigit (Z.of_nat n / 16) ++ hexDigit (Z.of_nat n mod 16)
  else String c "".

Fixpoint jsonEscape (s : string) : string :=
  match s with
  | EmptyString => ""
  | String c rest => jsonEscapeChar c ++ jsonEscape rest
  end.

Definition jsonString (s : string) : string := quote ++ jsonEscape s ++ quote.

Definition jsonNumber (z : Z) : string := decimalOfZ z.

Definition jsonField (key value : string) : string := jsonString key ++ ":" ++ value.

(** The argument object of [fingerprintForGeneration]. *)
Record FingerprintArgs := {
  userId : string;
  prompt : string;
  spriteSize : Z;
  frameCount : Z;
  projection : string;
  animationType : string;
  styleIntensity : Z;
  columns : Z;
  rows : Z;
  seed : Z;
  modelVersion : string
}.

(** [JSON.stringify({ ...args })]: the own properties in insertion order. *)
Definition stringifyArgs (args : FingerprintArgs) : string :=
  "{" ++ JsString.join ","
    [ jsonField "userId" (jsonString (userId args));
      jsonField "prompt" (jsonString (prompt args));
      jsonField "spriteSize" (jsonNumber (spriteSize args));
      jsonField "frameCount" (jsonNumber (frameCount args));
      jsonField "projection" (jsonString (projection args));
      jsonField "animationType" (jsonString (animationType args));
      jsonField "styleIntensity" (jsonNumber (styleIntensity args));
      jsonField "columns" (jsonNumber (columns args));
      jsonField "rows" (jsonNumber (rows args));
      jsonField "seed" (jsonNumber (seed args));
      jsonField "modelVersion" (jsonString (modelVersion args)) ]
  ++ "}".

Definition fingerprintForGeneration `{Crypto} (args : FingerprintArgs) : string :=
  sha256Hex (stringifyArgs args).

Definition cacheKey (fingerprint : string) : string := "sprite-cache:" ++ fingerprint.

End Fingerprint.

(** ** Attempt controller ([sprite.service.ts]) *)

(** The two exported functions of [prompt-builder.ts]; the controller only
    passes their results on. *)
Class PromptBuilder := {
  buildSpritePrompt :
    string -> Z -> Z -> string -> string -> Z -> Z -> Z -> Z -> bool -> string;
  buildQualityCorrectionPrompt :
    string -> nat -> nat -> list string -> bool -> nat -> string
}.

Module Controller.
Import JsNum.
Local Open Scope string_scope.
Local Open Scope Z_scope.

Inductive GenerationStatus := PENDING | PROCESSING | COMPLETED | FAILED.

Inductive ProjectionType := TWO_D | ISOMETRIC.

Inductive StopReason := token_budget | quality_stagnation.

(** A thrown JavaScript value, as far as the service inspects it. *)
Record Thrown := {
  isError : bool;          (* error instanceof Error *)
  isApiError : bool;       (* error instanceof ApiError *)
  message : string;        (* error.message *)
  status : option Z        (* a numeric error.status *)
}.

(** [new ApiError(statusCode, message)] *)
Definition ApiError (statusCode : Z) (msg : string) : Thrown :=
  {| isError := true; isApiError := true; message := msg; status := None |}.

Record ModelProfile := {
  inputPerMTokens : Q;
  outputPerMTokens : Q;
  mp_maxAttempts : nat;
  compactPrompt : bool;
  mp_correctionIssueLimit : option nat
}.

Definition modelRates : list (string * ModelProfile) :=
  [ ("gpt-4.1",
     {| inputPerMTokens := 2; outputPerMTokens := 8; mp_maxAttempts := 4%nat;
        compactPrompt := false; mp_correctionIssueLimit := Some 2%nat |});
    ("gpt-4.1-mini",
     {| inputPerMTokens := 4 # 10; outputPerMTokens := 16 # 10; mp_maxAttempts := 3;
        compactPrompt := true; mp_correctionIssueLimit := Some 2%nat |});
    ("gpt-4.1-nano",
     {| inputPerMTokens := 1 # 10; outputPerMTokens := 4 # 10; mp_maxAttempts := 4;
        compactPrompt := true; mp_correctionIssueLimit := Some 3%nat |});
    ("gpt-4o",
     {| inputPerMTokens := 25 # 10; outputPerMTokens := 10; mp_maxAttempts := 3;
        compactPrompt := false; mp_correctionIssueLimit := Some 2%nat |});
    ("gpt-4o-mini",
     {| inputPerMTokens := 15 # 100; outputPerMTokens := 6 # 10; mp_maxAttempts := 2;
        compactPrompt := true; mp_correctionIssueLimit := Some 2%nat |});
    ("gpt-image-1",
     {| inputPerMTokens := 4 # 10; outputPerMTokens := 0; mp_maxAttempts := 4;
        compactPrompt := false; mp_correctionIssueLimit := Some 4%nat |}) ].

Definition defaultProfile : ModelProfile :=
  {| inputPerMTokens := 4 # 10; outputPerMTokens := 0; mp_maxAttempts := 3;
     compactPrompt := false; mp_correctionIssueLimit := Some 2%nat |}.

(** [modelRates[model] ?? { ... }] *)
Definition getModelProfile (model : string) : ModelProfile :=
  match find (fun entry => String.eqb (fst entry) model) modelRates with
  | Some entry => snd entry
  | None => defaultProfile
  end.

(** [estimateCostUsd]; [getModelProfile] always answers, so the [null]
    result of the source is never produced. *)
Definition estimateCostUsd (model : string) (inputTokens outputTokens : Z) : Q :=
  let rates := getModelProfile model in
  let inputCost := ((inject_Z inputTokens / 1000000) * inputPerMTokens rates)%Q in
  let outputCost := ((inject_Z outputTokens / 1000000) * outputPerMTokens rates)%Q in
  (inputCost + outputCost)%Q.

(** [Math.max(1, Math.ceil(normalized.length / 4))], 0 for a blank text. *)
Definition estimateTokens (text : string) : Z :=
  let normalized := JsString.collapseWhiteSpace (JsString.trim text) in
  if String.eqb normalized "" then 0
  else Z.max 1 ((JsString.jsLength normalized + 3) / 4).

Definition estimateOutputTokens (spriteSize columns rows : Z) : Z :=
  let sheetPixels := spriteSize * spriteSize * columns * rows in
  Z.min (Z.max (mathRound (inject_Z sheetPixels / 20)%Q) 512) 12000.

Definition buildAttemptCostEstimate (model prompt : string) (outputTokensEstimate : Z) : Q :=
  estimateCostUsd model (estimateTokens prompt) outputTokensEstimate.

(** [Array.from(new Set(xs))]: the first occurrence of each value, in order. *)
Fixpoint dedupeFrom (seen : list string) (xs : list string) : list string :=
  match xs with
  | [] => []
  | x :: rest =>
      if existsb (String.eqb x) seen then dedupeFrom seen rest
      else x :: dedupeFrom (x :: seen) rest
  end.

Definition dedupe (xs : list string) : list string := dedupeFrom [] xs.

Definition nonEmpty (s : string) : bool := negb (String.length s =? 0)%nat.

Definition dedupeWarnings (warnings : list string) : list string :=
  dedupe (filter nonEmpty (map JsString.trim warnings)).

(** [Array.prototype.sort] without a comparator: code unit order. *)
Fixpoint insertSorted (x : string) (sorted : list string) : list string :=
  match sorted with
  | [] => [x]
  | y :: rest => if String.leb x y then x :: sorted else y :: insertSorted x rest
  end.

Definition sortStrings (xs : list string) : list string := fold_right insertSorted [] xs.

Definition buildWarningSignature (warnings : list string) : string :=
  JsString.join "|"
    (sortStrings
       (dedupe (filter nonEmpty
                  (map (fun warning => JsString.trim (JsString.toLowerCase warning)) warnings)))).

Definition MODEL_ACCESS_FALLBACK : string := "gpt-image-1".

(** *** The image backend ([generateRawImage]) *)

Record TokenUsage := {
  tu_inputTokens : Z;
  tu_outputTokens : Z;
  tu_totalTokens : Z
}.

(** [imageResponse.usage], each counter present or not. *)
Record Usage := {
  prompt_tokens : option Z;
  completion_tokens : option Z;
  total_tokens : option Z
}.

(** What [fetch(url)] answers. *)
Inductive FetchReply :=
| FetchOk
| FetchNotOk
| FetchThrows (e : Thrown).

(** [imageResponse.data?.[0]]: inline base64 bytes, a URL, or neither. *)
Inductive Payload :=
| PayloadB64
| PayloadUrl (fetched : FetchReply)
| PayloadNone.

(** What [openai.images.generate] answers to one request. *)
Inductive BackendReply :=
| ReplyOk (usage : option Usage) (payload : Payload)
| ReplyThrows (e : Thrown).

Definition extractMessage (e : Thrown) : string :=
  if isError e then message e else "OpenAI request failed".

Definition extractStatus (e : Thrown) : Z :=
  match status e with Some s => s | None => 0 end.

Definition isVerificationPropagationMessage (normalizedMessage : string) : bool :=
  JsString.includes "organization must be verified to use the model" normalizedMessage
  || (JsString.includes "just verified" normalizedMessage
      && JsString.includes "15 minutes" normalizedMessage).

Definition mapOpenAiError (e : Thrown) : Thrown :=
  if isApiError e then e
  else
    let msg := extractMessage e in
    let normalized := JsString.toLowerCase msg in
    let st := extractStatus e in
    if JsString.includes "billing hard limit" normalized
       || JsString.includes "insufficient_quota" normalized
    then ApiError 402 "OpenAI billing limit reached. Add credits and retry."
    else if (st =? 403) && isVerificationPropagationMessage normalized
    then ApiError 403
           ("Model access is pending organization verification propagation. Wait up to 15 minutes or choose "
            ++ MODEL_ACCESS_FALLBACK ++ ".")
    else if st =? 401
    then ApiError 502 "OpenAI authentication failed. Check OPENAI_API_KEY."
    else if st =? 429
    then ApiError 429 "OpenAI rate limit reached. Please retry shortly."
    else ApiError 502 ("OpenAI image generation failed: " ++ msg).

Record RawImage := {
  modelUsed : string;
  tokenUsage : TokenUsage
}.

(** The outcome of [generateRawImage] together with the number of
    [openai.images.generate] requests it issued. *)
Record RawOutcome := {
  requestsIssued : nat;
  rawResult : Thrown + RawImage
}.

Definition positiveOr (counter : option Z) (fallback : Z) : Z :=
  match counter with
  | Some n => if 0 <? n then n else fallback
  | None => fallback
  end.

Definition usageOf (usage : option Usage) (fallbackPromptTokens : Z) : TokenUsage :=
  let prompt := match usage with Some u => prompt_tokens u | None => None end in
  let completion := match usage with Some u => completion_tokens u | None => None end in
  let totalFromUsage := match usage with Some u => total_tokens u | None => None end in
  let inputTokens := positiveOr prompt fallbackPromptTokens in
  let outputTokens := positiveOr completion 0 in
  let finalOutputTokens :=
    if 0 <? outputTokens then outputTokens
    else Z.max 0 (match totalFromUsage with
                  | Some t => if inputTokens <=? t then t - inputTokens else 0
                  | None => 0
                  end) in
  let totalTokens :=
    match totalFromUsage with
    | Some t => t
    | None => inputTokens + finalOutputTokens
    end in
  {| tu_inputTokens := inputTokens; tu_outputTokens := finalOutputTokens;
     tu_totalTokens := totalTokens |}.

(** The part of [generateRawImage] after a successful request. *)
Definition deliver (requests : nat) (used prompt : string) (usage : option Usage)
    (payload : Payload) : RawOutcome :=
  let image := {| modelUsed := used; tokenUsage := usageOf usage (estimateTokens prompt) |} in
  {| requestsIssued := requests;
     rawResult :=
       match payload with
       | PayloadB64 => inr image
       | PayloadNone => inl (ApiError 502 "Image generation returned no image payload")
       | PayloadUrl FetchOk => inr image
       | PayloadUrl FetchNotOk => inl (ApiError 502 "Failed to download generated image")
       | PayloadUrl (FetchThrows e) => inl e
       end |}.

Definition generateRawImage (prompt model : string) (first fallback : BackendReply) : RawOutcome :=
  match first with
  | ReplyOk usage payload => deliver 1 model prompt usage payload
  | ReplyThrows error =>
      let normalized := JsString.toLowerCase (extractMessage error) in
      let st := extractStatus error in
      let verificationPropagationPending :=
        (st =? 403) && isVerificationPropagationMessage normalized in
      let transientOrUnsupportedServerError := (500 <=? st) && (st <? 600) in
      let shouldFallback :=
        negb (String.eqb model MODEL_ACCESS_FALLBACK)
        && (verificationPropagationPending || transientOrUnsupportedServerError) in
      if negb shouldFallback
      then {| requestsIssued := 1; rawResult := inl (mapOpenAiError error) |}
      else
        match fallback with
        | ReplyOk usage payload => deliver 2 MODEL_ACCESS_FALLBACK prompt usage payload
        | ReplyThrows fallbackError =>
            {| requestsIssued := 2; rawResult := inl (mapOpenAiError fallbackError) |}
        end
  end.

(** *** Settings verifier: the decision part of
    [verifyImageAgainstRequestedSettings] (lines 930-987 of the scorer
    file), over what its pixel passes measured. *)

Record VerifierFacts := {
  sheetWidth : Z;
  sheetHeight : Z;
  hasTransparency : bool;
  nonEmptyFrameCount : Z;
  unusedSlotsWithContent : Z
}.

Record SettingsVerificationResult := {
  passed : bool;
  summary : string;
  failures : list string
}.

Definition failIf (test : bool) (text : string) : list string :=
  if test then [text] else [].

(** [a % b !== 0] *)
Definition notDivisible (a b : Z) : bool :=
  if b =? 0 then true else negb (Z.rem a b =? 0).

Definition verifyImageAgainstRequestedSettings
    (facts : VerifierFacts) (spriteSize frameCount columns rows : Z) : SettingsVerificationResult :=
  let expectedSheetWidth := spriteSize * columns in
  let expectedSheetHeight := spriteSize * rows in
  let frameSlots := columns * rows in
  let frameWidth := sheetWidth facts / Z.max 1 columns in
  let frameHeight := sheetHeight facts / Z.max 1 rows in
  let px := decimalOfZ in
  let failures :=
    (failIf (negb (sheetWidth facts =? expectedSheetWidth))
       ("sheet width " ++ px (sheetWidth facts) ++ "px does not match requested "
        ++ px expectedSheetWidth ++ "px")
     ++ failIf (negb (sheetHeight facts =? expectedSheetHeight))
       ("sheet height " ++ px (sheetHeight facts) ++ "px does not match requested "
        ++ px expectedSheetHeight ++ "px")
     ++ failIf (notDivisible (sheetWidth facts) columns)
       ("sheet width " ++ px (sheetWidth facts) ++ "px is not divisible by columns " ++ px columns)
     ++ failIf (notDivisible (sheetHeight facts) rows)
       ("sheet height " ++ px (sheetHeight facts) ++ "px is not divisible by rows " ++ px rows)
     ++ failIf (negb (frameWidth =? spriteSize))
       ("frame width " ++ px frameWidth ++ "px does not match requested " ++ px spriteSize ++ "px")
     ++ failIf (negb (frameHeight =? spriteSize))
       ("frame height " ++ px frameHeight ++ "px does not match requested " ++ px spriteSize ++ "px")
     ++ failIf (frameSlots <? frameCount)
       ("layout capacity " ++ px frameSlots ++ " is below requested frame count " ++ px frameCount)
     ++ failIf (nonEmptyFrameCount facts <? frameCount)
       ("only " ++ px (nonEmptyFrameCount facts) ++ " non-empty frames detected for requested "
        ++ px frameCount ++ " frames")
     ++ failIf (0 <? unusedSlotsWithContent facts)
       (px (unusedSlotsWithContent facts) ++ " unused frame slots contain sprite content")
     ++ failIf (negb (hasTransparency facts))
       "image is not RGBA transparent as requested")%list in
  {| passed := (List.length failures =? 0)%nat;
     summary := if (List.length failures =? 0)%nat
                then "Image meets or exceeds requested settings."
                else "Image does not meet requested settings.";
     failures := failures |}.

(** *** Seeds and the prompt's seed line *)

(** [prompt.split(/\r?\n/)], with [current] the line being read, reversed. *)
Fixpoint splitLinesFrom (current : list ascii) (s : string) : list string :=
  match s with
  | EmptyString => [string_of_list_ascii (List.rev current)]
  | String c rest =>
      if (nat_of_ascii c =? 10)%nat then
        let line :=
          match current with
          | last :: before =>
              if (nat_of_ascii last =? 13)%nat then before else current
          | [] => current
          end in
        string_of_list_ascii (List.rev line) :: splitLinesFrom [] rest
      else splitLinesFrom (c :: current) rest
  end.

Definition splitLines (s : string) : list string := splitLinesFrom [] s.

(** [/^\s*seed=/i.test(line.trim())] *)
Definition isSeedLine (line : string) : bool :=
  String.prefix "seed=" (JsString.toLowerCase (JsString.trimStart (JsString.trim line))).

Definition newline : string := String (ascii_of_nat 10) "".

Definition replaceSeedLine (prompt : string) (seed : Z) : string :=
  let lines := splitLines prompt in
  let nextSeed := Z.abs (seed mod 4294967296) in
  let seedLine := "seed=" ++ decimalOfZ nextSeed in
  let nextLines := map (fun line => if isSeedLine line then seedLine else line) lines in
  let nextLines :=
    if forallb (fun line => negb (isSeedLine line)) nextLines
    then (nextLines ++ [seedLine])%list
    else nextLines in
  JsString.join newline nextLines.

(** [digest.readUInt32LE(0)] *)
Definition readUInt32LE (digest : list Z) : Z :=
  List.nth 0 digest 0 + 256 * List.nth 1 digest 0 + 65536 * List.nth 2 digest 0
  + 16777216 * List.nth 3 digest 0.

Definition attemptSeedForAttempt `{Crypto} (seed : option Z) (generationId : string)
    (attempt : nat) : Z :=
  let normalizedSeed := match seed with Some s => s | None => 0 end in
  let hashed :=
    generationId ++ ":" ++ decimalOfZ normalizedSeed ++ ":" ++ decimalOfZ (Z.of_nat attempt) in
  readUInt32LE (sha256Digest hashed).

(** *** Records of the controller *)

(** An image buffer held by the controller; only its identity matters. *)
Definition ImageRef := nat.

Record GenerationTokenEstimate := {
  te_inputTokens : Z;
  te_outputTokens : Z;
  te_totalTokens : Z;
  te_estimatedOutputTokens : Z
}.

Definition buildTokenUsage (inputTokens outputTokens estimatedOutputTokens : Z)
    : GenerationTokenEstimate :=
  {| te_inputTokens := inputTokens;
     te_outputTokens := outputTokens;
     te_totalTokens := inputTokens + outputTokens;
     te_estimatedOutputTokens := estimatedOutputTokens |}.

(** The export built by [buildSpriteSheetJson], as far as the controller
    fills it. *)
Record SpriteSheetJson := {
  json_tokenUsage : GenerationTokenEstimate;
  json_verification : SettingsVerificationResult;
  json_quality : option Quality.QualityDiagnostics
}.

(** A row of the [spriteGeneration] table. *)
Record SpriteGeneration := {
  g_id : string;
  g_userId : string;
  g_prompt : string;
  g_themePrompt : string;
  g_styleIntensity : Z;
  g_frameCount : Z;
  g_spriteSize : Z;
  g_projectionType : ProjectionType;
  g_animationType : string;
  g_columns : Z;
  g_rows : Z;
  g_modelVersion : string;
  g_seed : option Z;
  g_promptTokens : Z;
  g_qualityWarnings : list string;
  g_status : GenerationStatus;
  g_errorReason : option string;
  g_imageKey : option string;
  g_jsonConfig : option SpriteSheetJson
}.

(** The fields of [env] read by the service. *)
Record Env := {
  QUALITY_MIN_SCORE : Q;
  QUALITY_MAX_ATTEMPTS : nat;
  MAX_ESTIMATED_GENERATION_COST_USD : Q;
  STRICT_QUALITY_GATE : bool;
  OPENAI_IMAGE_MODEL : string
}.


Record AttemptCandidate := {
  c_attempt : nat;
  c_buffer : ImageRef;
  c_qualityWarnings : list string;
  c_qualityDiagnostics : Quality.QualityDiagnostics;
  c_settingsVerification : SettingsVerificationResult;
  c_tokenUsage : TokenUsage;
  c_score : Q;
  c_warningSignature : string;
  c_qualityScore : Q
}.

Definition candidateRank (candidate : AttemptCandidate) : Q :=
  let settingsBonus := if passed (c_settingsVerification candidate) then 1000%Q else 0%Q in
  let warningPenalty := (Qnat (List.length (c_qualityWarnings candidate)) * (1 # 2))%Q in
  (settingsBonus + c_score candidate - warningPenalty)%Q.

(** One finished attempt, as the loop judged it: the candidate together
    with the values of the locals [isFailure] and [isStalled]. *)
Record AttemptLog := {
  log_candidate : AttemptCandidate;
  log_qualityOk : bool;
  log_isFailure : bool;
  log_isStalled : bool
}.

(** The mutable locals of [processGeneration]. *)
Record LoopState := {
  activeModel : string;
  maxAttempts : nat;
  correctionIssueLimit : nat;
  isCorrectionCompact : bool;
  promptForAttempt : string;
  remainingBudgetUsd : Q;
  stopReason : option StopReason;
  lastFailureSignature : option string;
  lastFailureScore : option Q;      (* [None] is [Number.NEGATIVE_INFINITY] *)
  failureStallCount : nat;
  finalBuffer : option ImageRef;
  qualityWarnings : list string;
  inputTokens : Z;
  outputTokens : Z;
  totalTokens : Z;
  settingsVerification : option SettingsVerificationResult;
  qualityDiagnostics : option Quality.QualityDiagnostics;
  bestCandidate : option AttemptCandidate;
  successfulAttempt : option nat;
  attemptsExecuted : nat
}.

(** What the run did to its collaborators: the stored row, the number of
    [openai.images.generate] requests, the cache entries written, and the
    finished attempts, oldest first. *)
Record Trace := {
  row : SpriteGeneration;
  backendRequests : nat;
  cacheWrites : list (string * string);
  history : list AttemptLog
}.

(** *** The collaborators' answers *)

(** One image after the pixel passes of the scorer and of the verifier. *)
Record Evaluated := {
  ev_image : ImageRef;
  ev_pixels : Quality.PixelAnalysis;
  ev_facts : VerifierFacts
}.

(** The image pipeline of one attempt: [sharp] fails somewhere, or the
    stabilized sheet is measured, and [repairNearEmptyFrames] repairs
    [repairedSlots] frames, giving a second measured sheet. *)
Inductive PipelineReply :=
| PipelineThrows (e : Thrown)
| PipelineOk (stabilized : Evaluated) (repairedSlots : nat) (repaired : Evaluated).

Record AttemptIO := {
  io_reply : BackendReply;            (* the request with the active model *)
  io_fallbackReply : BackendReply;    (* the request with the fallback model *)
  io_persistModel : option Thrown;    (* the update of [modelVersion] *)
  io_pipeline : PipelineReply
}.

(** [None]: the awaited call succeeds; [Some e]: it rejects with [e]. *)
Record World := {
  findUnique : option SpriteGeneration;
  markProcessing : option Thrown;
  attemptIO : nat -> AttemptIO;
  reverify : Thrown + VerifierFacts;
  persistFailed : option Thrown;
  uploadImage : option Thrown;
  persistCompleted : option Thrown;
  cacheSet : option Thrown;
  hydrate : option Thrown;
  recordFailure : option Thrown
}.

Inductive Outcome :=
| Returned (status : GenerationStatus)
| Raised (e : Thrown).

(** *** Assignments to the locals and to the stored row *)

Definition beginAttempt (attempt : nat) (prompt : string) (st : LoopState) : LoopState :=
  {| activeModel := activeModel st; maxAttempts := maxAttempts st;
     correctionIssueLimit := correctionIssueLimit st;
     isCorrectionCompact := isCorrectionCompact st;
     promptForAttempt := prompt;
     remainingBudgetUsd := remainingBudgetUsd st; stopReason := stopReason st;
     lastFailureSignature := lastFailureSignature st;
     lastFailureScore := lastFailureScore st;
     failureStallCount := failureStallCount st; finalBuffer := finalBuffer st;
     qualityWarnings := qualityWarnings st; inputTokens := inputTokens st;
     outputTokens := outputTokens st; totalTokens := totalTokens st;
     settingsVerification := settingsVerification st;
     qualityDiagnostics := qualityDiagnostics st;
     bestCandidate := bestCandidate st; successfulAttempt := successfulAttempt st;
     attemptsExecuted := attempt |}.

Definition setPrompt (prompt : string) (st : LoopState) : LoopState :=
  beginAttempt (attemptsExecuted st) prompt st.

Definition setStopReason (reason : StopReason) (st : LoopState) : LoopState :=
  {| activeModel := activeModel st; maxAttempts := maxAttempts st;
     correctionIssueLimit := correctionIssueLimit st;
     isCorrectionCompact := isCorrectionCompact st;
     promptForAttempt := promptForAttempt st;
     remainingBudgetUsd := remainingBudgetUsd st; stopReason := Some reason;
     lastFailureSignature := lastFailureSignature st;
     lastFailureScore := lastFailureScore st;
     failureStallCount := failureStallCount st; finalBuffer := finalBuffer st;
     qualityWarnings := qualityWarnings st; inputTokens := inputTokens st;
     outputTokens := outputTokens st; totalTokens := totalTokens st;
     settingsVerification := settingsVerification st;
     qualityDiagnostics := qualityDiagnostics st;
     bestCandidate := bestCandidate st; successfulAttempt := successfulAttempt st;
     attemptsExecuted := attemptsExecuted st |}.

Definition setModel (model : string) (ceiling limit : nat) (compact : bool)
    (st : LoopState) : LoopState :=
  {| activeModel := model; maxAttempts := ceiling;
     correctionIssueLimit := limit;
     isCorrectionCompact := compact;
     promptForAttempt := promptForAttempt st;
     remainingBudgetUsd := remainingBudgetUsd st; stopReason := stopReason st;
     lastFailureSignature := lastFailureSignature st;
     lastFailureScore := lastFailureScore st;
     failureStallCount := failureStallCount st; finalBuffer := finalBuffer st;
     qualityWarnings := qualityWarnings st; inputTokens := inputTokens st;
     outputTokens := outputTokens st; totalTokens := totalTokens st;
     settingsVerification := settingsVerification st;
     qualityDiagnostics := qualityDiagnostics st;
     bestCandidate := bestCandidate st; successfulAttempt := successfulAttempt st;
     attemptsExecuted := attemptsExecuted st |}.

Definition setUsage (input output total : Z) (remaining : Q) (st : LoopState) : LoopState :=
  {| activeModel := activeModel st; maxAttempts := maxAttempts st;
     correctionIssueLimit := correctionIssueLimit st;
     isCorrectionCompact := isCorrectionCompact st;
     promptForAttempt := promptForAttempt st;
     remainingBudgetUsd := remaining; stopReason := stopReason st;
     lastFailureSignature := lastFailureSignature st;
     lastFailureScore := lastFailureScore st;
     failureStallCount := failureStallCount st; finalBuffer := finalBuffer st;
     qualityWarnings := qualityWarnings st; inputTokens := input;
     outputTokens := output; totalTokens := total;
     settingsVerification := settingsVerification st;
     qualityDiagnostics := qualityDiagnostics st;
     bestCandidate := bestCandidate st; successfulAttempt := successfulAttempt st;
     attemptsExecuted := attemptsExecuted st |}.

Definition setJudgement (best : AttemptCandidate) (signature : option string)
    (lastScore : option Q) (stall : nat) (st : LoopState) : LoopState :=
  {| activeModel := activeModel st; maxAttempts := maxAttempts st;
     correctionIssueLimit := correctionIssueLimit st;
     isCorrectionCompact := isCorrectionCompact st;
     promptForAttempt := promptForAttempt st;
     remainingBudgetUsd := remainingBudgetUsd st; stopReason := stopReason st;
     lastFailureSignature := signature;
     lastFailureScore := lastScore;
     failureStallCount := stall; finalBuffer := finalBuffer st;
     qualityWarnings := qualityWarnings st; inputTokens := inputTokens st;
     outputTokens := outputTokens st; totalTokens := totalTokens st;
     settingsVerification := settingsVerification st;
     qualityDiagnostics := qualityDiagnostics st;
     bestCandidate := Some best; successfulAttempt := successfulAttempt st;
     attemptsExecuted := attemptsExecuted st |}.

Definition setAccepted (buffer : ImageRef) (warnings : list string)
    (verification : SettingsVerificationResult) (diagnostics : Quality.QualityDiagnostics)
    (attempt : nat) (st : LoopState) : LoopState :=
  {| activeModel := activeModel st; maxAttempts := maxAttempts st;
     correctionIssueLimit := correctionIssueLimit st;
     isCorrectionCompact := isCorrectionCompact st;
     promptForAttempt := promptForAttempt st;
     remainingBudgetUsd := remainingBudgetUsd st; stopReason := stopReason st;
     lastFailureSignature := lastFailureSignature st;
     lastFailureScore := lastFailureScore st;
     failureStallCount := failureStallCount st; finalBuffer := Some buffer;
     qualityWarnings := warnings; inputTokens := inputTokens st;
     outputTokens := outputTokens st; totalTokens := totalTokens st;
     settingsVerification := Some verification;
     qualityDiagnostics := Some diagnostics;
     bestCandidate := bestCandidate st; successfulAttempt := Some attempt;
     attemptsExecuted := attemptsExecuted st |}.

(** [prisma.spriteGeneration.update({ data })] on the row, for each shape
    of [data] the service writes. *)
Definition patchRow (r : SpriteGeneration) (model : string) (promptTokens : Z)
    (warnings : list string) (st : GenerationStatus) (reason : option string)
    (imageKey : option string) (json : option SpriteSheetJson) : SpriteGeneration :=
  {| g_id := g_id r; g_userId := g_userId r; g_prompt := g_prompt r;
     g_themePrompt := g_themePrompt r; g_styleIntensity := g_styleIntensity r;
     g_frameCount := g_frameCount r; g_spriteSize := g_spriteSize r;
     g_projectionType := g_projectionType r; g_animationType := g_animationType r;
     g_columns := g_columns r; g_rows := g_rows r;
     g_modelVersion := model; g_seed := g_seed r;
     g_promptTokens := promptTokens; g_qualityWarnings := warnings;
     g_status := st; g_errorReason := reason; g_imageKey := imageKey;
     g_jsonConfig := json |}.

(** [{ status: PROCESSING, errorReason: null }] *)
Definition rowProcessing (r : SpriteGeneration) : SpriteGeneration :=
  patchRow r (g_modelVersion r) (g_promptTokens r) (g_qualityWarnings r) PROCESSING None
    (g_imageKey r) (g_jsonConfig r).

(** [{ modelVersion: activeModel }] *)
Definition rowModel (model : string) (r : SpriteGeneration) : SpriteGeneration :=
  patchRow r model (g_promptTokens r) (g_qualityWarnings r) (g_status r) (g_errorReason r)
    (g_imageKey r) (g_jsonConfig r).

(** [{ status: FAILED, promptTokens, qualityWarnings, errorReason, jsonConfig }] *)
Definition rowFailed (promptTokens : Z) (warnings : list string) (reason : string)
    (json : SpriteSheetJson) (r : SpriteGeneration) : SpriteGeneration :=
  patchRow r (g_modelVersion r) promptTokens warnings FAILED (Some reason) (g_imageKey r)
    (Some json).

(** The update of the [catch] block, which leaves [jsonConfig] as it is. *)
Definition rowCaught (promptTokens : Z) (warnings : list string) (reason : string)
    (r : SpriteGeneration) : SpriteGeneration :=
  patchRow r (g_modelVersion r) promptTokens warnings FAILED (Some reason) (g_imageKey r)
    (g_jsonConfig r).

(** [{ status: COMPLETED, imageKey, jsonConfig, qualityWarnings, promptTokens, errorReason: null }] *)
Definition rowCompleted (imageKey : string) (json : SpriteSheetJson) (warnings : list string)
    (promptTokens : Z) (r : SpriteGeneration) : SpriteGeneration :=
  patchRow r (g_modelVersion r) promptTokens warnings COMPLETED None (Some imageKey)
    (Some json).

Definition withRow (r : SpriteGeneration) (tr : Trace) : Trace :=
  {| row := r; backendRequests := backendRequests tr;
     cacheWrites := cacheWrites tr; history := history tr |}.

Definition addRequests (n : nat) (tr : Trace) : Trace :=
  {| row := row tr; backendRequests := (backendRequests tr + n)%nat;
     cacheWrites := cacheWrites tr; history := history tr |}.

Definition addCacheWrite (key value : string) (tr : Trace) : Trace :=
  {| row := row tr; backendRequests := backendRequests tr;
     cacheWrites := (cacheWrites tr ++ [(key, value)])%list; history := history tr |}.

Definition addLog (entry : AttemptLog) (tr : Trace) : Trace :=
  {| row := row tr; backendRequests := backendRequests tr;
     cacheWrites := cacheWrites tr; history := (history tr ++ [entry])%list |}.

(** *** One run of [processGeneration] *)

Inductive StepOutcome :=
| StepBreak (st : LoopState) (tr : Trace)       (* [break] *)
| StepContinue (st : LoopState) (tr : Trace)    (* the end of the loop body *)
| StepThrow (e : Thrown) (st : LoopState) (tr : Trace).

Inductive LoopEnd :=
| LoopFinished (st : LoopState) (tr : Trace)
| LoopThrew (e : Thrown) (st : LoopState) (tr : Trace)
| LoopOutOfFuel.

(** How the [try] block ends. *)
Inductive TryResult :=
| TryReturned (status : GenerationStatus) (st : LoopState) (tr : Trace)
| TryThrew (e : Thrown) (st : LoopState) (tr : Trace).

(** The sheet an attempt settles on. *)
Record Judged := {
  j_buffer : ImageRef;
  j_quality : Quality.QualityResult;
  j_settings : SettingsVerificationResult;
  j_frameRepairSlots : nat
}.

Definition projectionToApi (projectionType : ProjectionType) : string :=
  match projectionType with TWO_D => "2D" | ISOMETRIC => "isometric" end.

Definition budgetWarning : string :=
  "Stopped early due to token budget limit. Lowering prompt complexity or choosing a cheaper model may help.".

Definition stagnationWarning : string :=
  "Stopped early due to no quality signal improvement across attempts.".

Section Run.
Context `{crypto : Crypto} `{promptBuilder : PromptBuilder}.
Variable env : Env.
Variable world : World.
Variable generation : SpriteGeneration.

Definition configuredMaxAttempts : nat := Nat.max 1 (QUALITY_MAX_ATTEMPTS env).

Definition ceilingFor (model : string) : nat :=
  Nat.min (mp_maxAttempts (getModelProfile model)) configuredMaxAttempts.

Definition issueLimitFor (model : string) : nat :=
  match mp_correctionIssueLimit (getModelProfile model) with Some n => n | None => 2%nat end.

Definition estimatedOutputTokensPerAttempt : Z :=
  estimateOutputTokens (g_spriteSize generation) (g_columns generation) (g_rows generation).

Definition qualityInput : Quality.QualityInput :=
  {| Quality.spriteSize := g_spriteSize generation;
     Quality.columns := g_columns generation;
     Quality.rows := g_rows generation;
     Quality.frameCount := g_frameCount generation;
     Quality.animationType := Some (g_animationType generation);
     Quality.styleIntensity := Some (inject_Z (g_styleIntensity generation));
     Quality.minScore := Some (QUALITY_MIN_SCORE env) |}.

Definition verify (facts : VerifierFacts) : SettingsVerificationResult :=
  verifyImageAgainstRequestedSettings facts (g_spriteSize generation)
    (g_frameCount generation) (g_columns generation) (g_rows generation).

Definition scoreOf (q : Quality.QualityResult) : Q := Quality.score (Quality.diagnostics q).

Definition emptyFramesOf (q : Quality.QualityResult) : nat :=
  Quality.emptyFrameCount (Quality.metrics (Quality.diagnostics q)).

(** [diagnostics.score + (passed ? 0 : -18)] *)
Definition rankedScore (q : Quality.QualityResult) (v : SettingsVerificationResult) : Q :=
  (scoreOf q + (if passed v then 0 else -18))%Q.

(** Lines 1336-1434: score and verify the stabilized sheet, and prefer
    the repaired sheet when the repair helped. *)
Definition judge (stabilized : Evaluated) (repairedSlots : nat) (repaired : Evaluated) : Judged :=
  let qualityResult := Quality.validateSpriteQuality qualityInput (ev_pixels stabilized) in
  let attemptSettingsVerification := verify (ev_facts stabilized) in
  let original :=
    {| j_buffer := ev_image stabilized; j_quality := qualityResult;
       j_settings := attemptSettingsVerification; j_frameRepairSlots := 0 |} in
  let missingFrameWarning :=
    (0 <? emptyFramesOf qualityResult)%nat
    || existsb (JsString.includes "non-empty frames") (failures attemptSettingsVerification) in
  let originalAttemptScore := rankedScore qualityResult attemptSettingsVerification in
  if missingFrameWarning && (0 <? repairedSlots)%nat then
    let repairedQualityResult := Quality.validateSpriteQuality qualityInput (ev_pixels repaired) in
    let repairedSettings := verify (ev_facts repaired) in
    let repairedAttemptScore := rankedScore repairedQualityResult repairedSettings in
    let repairedImprovedEmptyFrames :=
      (emptyFramesOf repairedQualityResult <? emptyFramesOf qualityResult)%nat in
    let shouldUseRepairedAttempt :=
      Qltb originalAttemptScore repairedAttemptScore
      || (passed repairedSettings && negb (passed attemptSettingsVerification))
      || repairedImprovedEmptyFrames in
    if shouldUseRepairedAttempt then
      {| j_buffer := ev_image repaired; j_quality := repairedQualityResult;
         j_settings := repairedSettings; j_frameRepairSlots := repairedSlots |}
    else original
  else original.

Definition initialState : LoopState :=
  {| activeModel := g_modelVersion generation;
     maxAttempts := ceilingFor (g_modelVersion generation);
     correctionIssueLimit := issueLimitFor (g_modelVersion generation);
     isCorrectionCompact := compactPrompt (getModelProfile (g_modelVersion generation));
     promptForAttempt := g_prompt generation;
     remainingBudgetUsd := MAX_ESTIMATED_GENERATION_COST_USD env;
     stopReason := None;
     lastFailureSignature := None;
     lastFailureScore := None;
     failureStallCount := 0;
     finalBuffer := None;
     qualityWarnings := [];
     inputTokens := 0; outputTokens := 0; totalTokens := 0;
     settingsVerification := None;
     qualityDiagnostics := None;
     bestCandidate := None;
     successfulAttempt := None;
     attemptsExecuted := 0 |}.

(** [!bestCandidate || candidateRank(candidate) > candidateRank(bestCandidate)] *)
Definition nextBest (best : option AttemptCandidate) (candidate : AttemptCandidate)
    : AttemptCandidate :=
  match best with
  | None => candidate
  | Some b => if Qltb (candidateRank b) (candidateRank candidate) then candidate else b
  end.

(** Lines 1436-1541: rank the settled sheet, update the stall counters
    and decide between [break] and the next attempt. *)
Definition settle (attempt : nat) (usage : TokenUsage) (j : Judged)
    (st : LoopState) (tr : Trace) : StepOutcome :=
  let attemptQualityResult := j_quality j in
  let attemptSettingsVerification := j_settings j in
  let attemptWarnings :=
    dedupeWarnings (Quality.reasons attemptQualityResult
                    ++ failures attemptSettingsVerification)%list in
  let attemptScore := rankedScore attemptQualityResult attemptSettingsVerification in
  let candidate :=
    {| c_attempt := attempt;
       c_buffer := j_buffer j;
       c_qualityWarnings := attemptWarnings;
       c_qualityDiagnostics := Quality.diagnostics attemptQualityResult;
       c_settingsVerification := attemptSettingsVerification;
       c_tokenUsage := usage;
       c_score := attemptScore;
       c_warningSignature := buildWarningSignature attemptWarnings;
       c_qualityScore := scoreOf attemptQualityResult |} in
  let best := nextBest (bestCandidate st) candidate in
  let isFailure :=
    negb (Quality.ok attemptQualityResult) || negb (passed attemptSettingsVerification) in
  let isStalled :=
    isFailure
    && (1 <? attempt)%nat
    && match lastFailureSignature st with
       | Some signature => String.eqb signature (c_warningSignature candidate)
       | None => false
       end
    && match lastFailureScore st with
       | Some lastScore => Qleb (c_qualityScore candidate) (lastScore + (75 # 100))
       | None => false
       end in
  let st :=
    if isFailure
    then setJudgement best (Some (c_warningSignature candidate))
           (Some (c_qualityScore candidate))
           (if isStalled then (failureStallCount st + 1)%nat else 0%nat) st
    else setJudgement best None None 0%nat st in
  let tr :=
    addLog {| log_candidate := candidate;
              log_qualityOk := Quality.ok attemptQualityResult;
              log_isFailure := isFailure;
              log_isStalled := isStalled |} tr in
  if match stopReason st with None => true | Some _ => false end
     && isStalled && (2 <=? failureStallCount st)%nat
  then StepBreak (setStopReason quality_stagnation st) tr
  else if Quality.ok attemptQualityResult && passed attemptSettingsVerification
  then StepBreak
         (setAccepted (j_buffer j) attemptWarnings attemptSettingsVerification
            (Quality.diagnostics attemptQualityResult) attempt st) tr
  else if (attempt <? maxAttempts st)%nat
  then StepContinue
         (setPrompt
            (buildQualityCorrectionPrompt (g_prompt generation) (attempt + 1)%nat
               (maxAttempts st) attemptWarnings (isCorrectionCompact st)
               (correctionIssueLimit st)) st) tr
  else StepContinue st tr.

(** Lines 1277-1306: the backend answered with another model than the
    active one. *)
Definition adoptModel (used : string) (st : LoopState) : LoopState :=
  setModel used (ceilingFor used) (issueLimitFor used)
    (compactPrompt (getModelProfile used)) st.

(** The body of [for (let attempt = 1; attempt <= maxAttempts; attempt += 1)]. *)
Definition attemptBody (attempt : nat) (st : LoopState) (tr : Trace) : StepOutcome :=
  let seedForAttempt := attemptSeedForAttempt (g_seed generation) (g_id generation) attempt in
  let st := beginAttempt attempt (replaceSeedLine (promptForAttempt st) seedForAttempt) st in
  if Qleb (remainingBudgetUsd st) 0 then StepBreak (setStopReason token_budget st) tr
  else
    let attemptCost :=
      buildAttemptCostEstimate (activeModel st) (promptForAttempt st)
        estimatedOutputTokensPerAttempt in
    if Qltb (remainingBudgetUsd st) attemptCost
    then StepBreak (setStopReason token_budget st) tr
    else
      let io := attemptIO world attempt in
      let raw :=
        generateRawImage (promptForAttempt st) (activeModel st)
          (io_reply io) (io_fallbackReply io) in
      let tr := addRequests (requestsIssued raw) tr in
      match rawResult raw with
      | inl e => StepThrow e st tr
      | inr image =>
          let switched := negb (String.eqb (modelUsed image) (activeModel st)) in
          let st := if switched then adoptModel (modelUsed image) st else st in
          match (if switched then io_persistModel io else None) with
          | Some e => StepThrow e st tr
          | None =>
              let tr := if switched then withRow (rowModel (activeModel st) (row tr)) tr else tr in
              let usage := tokenUsage image in
              let st :=
                setUsage (inputTokens st + tu_inputTokens usage)
                  (outputTokens st + tu_outputTokens usage)
                  (totalTokens st + tu_totalTokens usage)
                  (Qmax 0 (remainingBudgetUsd st
                           - estimateCostUsd (modelUsed image) (tu_inputTokens usage)
                               (tu_outputTokens usage))%Q) st in
              match io_pipeline io with
              | PipelineThrows e => StepThrow e st tr
              | PipelineOk stabilized repairedSlots repaired =>
                  settle attempt usage (judge stabilized repairedSlots repaired) st tr
              end
          end
      end.

Fixpoint attemptLoop (fuel attempt : nat) (st : LoopState) (tr : Trace) : LoopEnd :=
  if (attempt <=? maxAttempts st)%nat then
    match fuel with
    | O => LoopOutOfFuel
    | S fuel' =>
        match attemptBody attempt st tr with
        | StepBreak st' tr' => LoopFinished st' tr'
        | StepContinue st' tr' => attemptLoop fuel' (S attempt) st' tr'
        | StepThrow e st' tr' => LoopThrew e st' tr'
        end
    end
  else LoopFinished st tr.

Definition tokenEstimate (st : LoopState) : GenerationTokenEstimate :=
  buildTokenUsage (inputTokens st) (outputTokens st)
    (estimatedOutputTokensPerAttempt * Z.of_nat (attemptsExecuted st)).

Definition bestDiagnostics (st : LoopState) : option Quality.QualityDiagnostics :=
  match qualityDiagnostics st with
  | Some d => Some d
  | None => option_map c_qualityDiagnostics (bestCandidate st)
  end.

Definition fingerprintOfRow (r : SpriteGeneration) : string :=
  Fingerprint.fingerprintForGeneration
    {| Fingerprint.userId := g_userId generation;
       Fingerprint.prompt := g_themePrompt r;
       Fingerprint.spriteSize := g_spriteSize r;
       Fingerprint.frameCount := g_frameCount r;
       Fingerprint.projection := projectionToApi (g_projectionType r);
       Fingerprint.animationType := g_animationType r;
       Fingerprint.styleIntensity := g_styleIntensity r;
       Fingerprint.columns := g_columns r;
       Fingerprint.rows := g_rows r;
       Fingerprint.seed := match g_seed r with Some s => s | None => 0 end;
       Fingerprint.modelVersion := g_modelVersion r |}.

(** Lines 1672-1795: the sheet [buffer] was accepted. *)
Definition publish (st : LoopState) (tr : Trace) : TryResult :=
  let verification :=
    match settingsVerification st with
    | Some v => inr v
    | None =>
        match reverify world with
        | inl e => inl e
        | inr facts => inr (verify facts)
        end
    end in
  match verification with
  | inl e => TryThrew e st tr
  | inr v =>
      let json :=
        {| json_tokenUsage := tokenEstimate st; json_verification := v;
           json_quality := bestDiagnostics st |} in
      if negb (passed v) then
        match persistFailed world with
        | Some e => TryThrew e st tr
        | None =>
            TryReturned FAILED st
              (withRow (rowFailed (inputTokens st)
                          (dedupeWarnings (qualityWarnings st ++ failures v)%list)
                          (summary v) json (row tr)) tr)
        end
      else
        match uploadImage world with
        | Some e => TryThrew e st tr
        | None =>
            let imageKey := "sprites/" ++ g_userId generation ++ "/" ++ g_id generation ++ ".png" in
            match persistCompleted world with
            | Some e => TryThrew e st tr
            | None =>
                let completed :=
                  rowCompleted imageKey json (qualityWarnings st) (inputTokens st) (row tr) in
                let tr := withRow completed tr in
                match cacheSet world with
                | Some e => TryThrew e st tr
                | None =>
                    TryReturned COMPLETED st
                      (addCacheWrite (Fingerprint.cacheKey (fingerprintOfRow completed))
                         (g_id completed) tr)
                end
            end
        end
  end.

(** Lines 1582-1668: no sheet was accepted. *)
Definition reject (st : LoopState) (tr : Trace) : TryResult :=
  let failureWarnings :=
    dedupeWarnings
      (match bestCandidate st with
       | Some b => c_qualityWarnings b
       | None =>
           [ "Generation stopped after " ++ decimalOfZ (Z.of_nat (attemptsExecuted st)) ++ "/"
             ++ decimalOfZ (Z.of_nat (maxAttempts st)) ++ " attempts" ]
       end) in
  let failureWarnings :=
    match stopReason st with
    | Some token_budget => budgetWarning :: failureWarnings
    | Some quality_stagnation => stagnationWarning :: failureWarnings
    | None => failureWarnings
    end in
  let failureVerification :=
    match bestCandidate st with
    | Some b => c_settingsVerification b
    | None =>
        {| passed := false;
           summary := "Image does not meet requested settings.";
           failures := ["No valid candidate produced by quality gate."] |}
    end in
  let failureSummary :=
    if passed failureVerification && (0 <? List.length failureWarnings)%nat
    then "Quality gate rejected output after "
         ++ decimalOfZ (Z.of_nat (attemptsExecuted st)) ++ " attempts"
    else summary failureVerification in
  let failedJson :=
    {| json_tokenUsage := tokenEstimate st;
       json_verification := failureVerification;
       json_quality := option_map c_qualityDiagnostics (bestCandidate st) |} in
  match persistFailed world with
  | Some e => TryThrew e st tr
  | None =>
      TryReturned FAILED st
        (withRow (rowFailed (inputTokens st) failureWarnings failureSummary failedJson (row tr)) tr)
  end.

(** Lines 1544-1570: the decision after the loop. *)
Definition finalize (st : LoopState) (tr : Trace) : TryResult :=
  match finalBuffer st with
  | Some _ => publish st tr
  | None =>
      match bestCandidate st with
      | Some b =>
          if negb (STRICT_QUALITY_GATE env)
             && passed (c_settingsVerification b)
             && Qleb (QUALITY_MIN_SCORE env) (Quality.score (c_qualityDiagnostics b))
          then
            let note :=
              "Accepted best attempt " ++ decimalOfZ (Z.of_nat (c_attempt b))
              ++ " at quality score "
              ++ toFixed1Text (Quality.score (c_qualityDiagnostics b))
              ++ " with strict gate disabled" in
            publish
              (setAccepted (c_buffer b)
                 (dedupeWarnings (List.app (c_qualityWarnings b) [note]))
                 (c_settingsVerification b) (c_qualityDiagnostics b) (c_attempt b) st) tr
          else reject st tr
      | None => reject st tr
      end
  end.

(** The [try] block: the attempt loop, then the decision. *)
Definition tryBlock (tr : Trace) : option TryResult :=
  match attemptLoop configuredMaxAttempts 1 initialState tr with
  | LoopFinished st tr' => Some (finalize st tr')
  | LoopThrew e st tr' => Some (TryThrew e st tr')
  | LoopOutOfFuel => None
  end.

End Run.

(** What a call of [processGeneration] leaves behind: how it ended, the
    locals when it ended, and the trace (absent when no row was found). *)
Record RunResult := {
  outcome : Outcome;
  lastState : option LoopState;
  trace : option Trace
}.

(** [error instanceof Error ? error.message : "Generation failed"] *)
Definition reasonOf (e : Thrown) : string :=
  if isError e then message e else "Generation failed".

(** [processGeneration]; [None] only if the attempt loop needed more
    iterations than [configuredMaxAttempts]. *)
Definition processGeneration `{Crypto} `{PromptBuilder} (env : Env) (world : World)
    : option RunResult :=
  match findUnique world with
  | None =>
      Some {| outcome := Raised (ApiError 404 "Generation record not found");
              lastState := None; trace := None |}
  | Some generation =>
      let found :=
        {| row := generation; backendRequests := 0; cacheWrites := []; history := [] |} in
      match markProcessing world with
      | Some e => Some {| outcome := Raised e; lastState := None; trace := Some found |}
      | None =>
          match tryBlock env world generation (withRow (rowProcessing generation) found) with
          | None => None
          | Some (TryReturned status st tr) =>
              Some {| outcome :=
                        match hydrate world with
                        | None => Returned status
                        | Some e => Raised e
                        end;
                      lastState := Some st; trace := Some tr |}
          | Some (TryThrew e st tr) =>
              match recordFailure world with
              | Some e' =>
                  Some {| outcome := Raised e'; lastState := Some st; trace := Some tr |}
              | None =>
                  Some {| outcome := Raised e;
                          lastState := Some st;
                          trace :=
                            Some (withRow
                                    (rowCaught (inputTokens st) (qualityWarnings st)
                                       (JsString.slice0 500 (reasonOf e)) (row tr)) tr) |}
              end
          end
      end
  end.

(** *** Accepting a request ([createGenerationRequest]) *)

Inductive UserRole := USER | ADMIN.

Inductive Layout := LayoutRow | LayoutGrid.

Record GenerateSpriteInput := {
  in_prompt : string;
  in_spriteSize : Z;
  in_frameCount : Z;
  in_projection : ProjectionType;
  in_animationType : string;
  in_styleIntensity : Z;
  in_layout : Layout;
  in_columns : option Z;
  in_seed : option Z;
  in_model : option string
}.

(** The tables and the cache the function reads and writes.  A user is
    stored with its [dailyGenerationLimit]; [createdToday] tells which
    rows count for the daily limit. *)
Record Store := {
  users : list (string * Z);
  generations : list SpriteGeneration;
  createdToday : SpriteGeneration -> bool;
  cache : list (string * string)
}.

(** What the call draws from outside: [Math.random] scaled to a seed,
    and the identifier the database gives to a new row. *)
Record Fresh := {
  randomSeed : Z;
  newId : string
}.

Inductive RequestResult :=
| RequestThrew (e : Thrown)
| RequestCached (cached : SpriteGeneration)
| RequestCreated (generation : SpriteGeneration).

Definition normalizePrompt (value : string) : string :=
  JsString.collapseWhiteSpace (JsString.trim value).

Fixpoint hasAngleBracket (s : string) : bool :=
  match s with
  | EmptyString => false
  | String c rest =>
      (nat_of_ascii c =? 60)%nat || (nat_of_ascii c =? 62)%nat || hasAngleBracket rest
  end.

Definition validatePromptStructure (value : string) : Thrown + string :=
  let prompt := normalizePrompt value in
  if JsString.jsLength prompt <? 4 then inl (ApiError 400 "Prompt is too short")
  else if hasAngleBracket prompt then inl (ApiError 400 "Prompt contains disallowed characters")
  else inr prompt.

(** [Math.ceil(Math.sqrt(n))] for a non-negative integer. *)
Definition ceilSqrt (n : Z) : Z :=
  let s := Z.sqrt n in if s * s =? n then s else s + 1.

(** [Math.ceil(a / b)] for positive [b]. *)
Definition ceilDiv (a b : Z) : Z := - ((- a) / b).

Definition resolveLayout (frameCount : Z) (layout : Layout) (columns : option Z) : Z * Z :=
  match layout with
  | LayoutRow => (frameCount, 1)
  | LayoutGrid =>
      let finalColumns :=
        match columns with
        | Some c => c
        | None => Z.max 1 (ceilSqrt frameCount)
        end in
      (finalColumns, ceilDiv frameCount finalColumns)
  end.

Definition shouldQueueGeneration (input : GenerateSpriteInput) : bool :=
  (768 <? in_frameCount input * in_spriteSize input)
  || (10 <? in_frameCount input)
  || (96 <? in_spriteSize input).

(** [assertDailyLimit]: [None] when the request may go on. *)
Definition assertDailyLimit (store : Store) (userId : string) (role : UserRole) : option Thrown :=
  match role with
  | ADMIN => None
  | USER =>
      match find (fun u => String.eqb (fst u) userId) (users store) with
      | None => Some (ApiError 404 "User not found")
      | Some user =>
          let todaysCount :=
            Z.of_nat
              (List.length
                 (filter (fun g => String.eqb (g_userId g) userId && createdToday store g)
                    (generations store))) in
          if snd user <=? todaysCount
          then Some (ApiError 429 "Daily generation limit reached")
          else None
      end
  end.

(** [redis.get(key)] *)
Definition cacheGet (store : Store) (key : string) : option string :=
  option_map snd (find (fun entry => String.eqb (fst entry) key) (cache store)).

(** [redis.set(key, value, "EX", ttl)] *)
Definition cachePut (key value : string) (entries : list (string * string))
    : list (string * string) :=
  (key, value) :: filter (fun entry => negb (String.eqb (fst entry) key)) entries.

(** [prisma.spriteGeneration.findFirst({ where: { id, userId } })] *)
Definition findFirst (store : Store) (id userId : string) : option SpriteGeneration :=
  find (fun g => String.eqb (g_id g) id && String.eqb (g_userId g) userId) (generations store).

Definition isFailed (st : GenerationStatus) : bool :=
  match st with FAILED => true | _ => false end.

Definition fingerprintOfRequest `{Crypto} (userId themePrompt : string)
    (input : GenerateSpriteInput) (columns rows seed : Z) (selectedModel : string) : string :=
  Fingerprint.fingerprintForGeneration
    {| Fingerprint.userId := userId;
       Fingerprint.prompt := themePrompt;
       Fingerprint.spriteSize := in_spriteSize input;
       Fingerprint.frameCount := in_frameCount input;
       Fingerprint.projection := projectionToApi (in_projection input);
       Fingerprint.animationType := in_animationType input;
       Fingerprint.styleIntensity := in_styleIntensity input;
       Fingerprint.columns := columns;
       Fingerprint.rows := rows;
       Fingerprint.seed := seed;
       Fingerprint.modelVersion := selectedModel |}.

Definition createGenerationRequest `{Crypto} `{PromptBuilder} (env : Env) (store : Store)
    (fresh : Fresh) (userId : string) (role : UserRole) (input : GenerateSpriteInput)
    : RequestResult * Store :=
  match assertDailyLimit store userId role with
  | Some e => (RequestThrew e, store)
  | None =>
      match validatePromptStructure (in_prompt input) with
      | inl e => (RequestThrew e, store)
      | inr themePrompt =>
          let '(columns, rows) :=
            resolveLayout (in_frameCount input) (in_layout input) (in_columns input) in
          let seed := match in_seed input with Some s => s | None => randomSeed fresh end in
          let selectedModel :=
            match in_model input with Some m => m | None => OPENAI_IMAGE_MODEL env end in
          let modelProfile := getModelProfile selectedModel in
          let maxAttempts :=
            Nat.min (mp_maxAttempts modelProfile) (Nat.max 1 (QUALITY_MAX_ATTEMPTS env)) in
          let fullPrompt :=
            buildSpritePrompt themePrompt (in_spriteSize input) (in_frameCount input)
              (projectionToApi (in_projection input)) (in_animationType input)
              (in_styleIntensity input) columns rows seed (compactPrompt modelProfile) in
          let estimatedPromptTokens := estimateTokens fullPrompt in
          let estimatedOutputTokensPerAttempt :=
            estimateOutputTokens (in_spriteSize input) columns rows in
          let estimatedCostUsd :=
            estimateCostUsd selectedModel (estimatedPromptTokens * Z.of_nat maxAttempts)
              (estimatedOutputTokensPerAttempt * Z.of_nat maxAttempts) in
          if Qltb (MAX_ESTIMATED_GENERATION_COST_USD env) estimatedCostUsd
          then (RequestThrew
                  (ApiError 402
                     "Estimated token spend exceeds configured budget. Reduce frame size or choose a cheaper model."),
                store)
          else
            let fingerprint :=
              fingerprintOfRequest userId themePrompt input columns rows seed selectedModel in
            let hit :=
              match cacheGet store (Fingerprint.cacheKey fingerprint) with
              | Some cachedGenerationId =>
                  match findFirst store cachedGenerationId userId with
                  | Some cached => if isFailed (g_status cached) then None else Some cached
                  | None => None
                  end
              | None => None
              end in
            match hit with
            | Some cached => (RequestCached cached, store)
            | None =>
                let generation :=
                  {| g_id := newId fresh; g_userId := userId; g_prompt := fullPrompt;
                     g_themePrompt := themePrompt;
                     g_styleIntensity := in_styleIntensity input;
                     g_frameCount := in_frameCount input;
                     g_spriteSize := in_spriteSize input;
                     g_projectionType := in_projection input;
                     g_animationType := in_animationType input;
                     g_columns := columns; g_rows := rows;
                     g_modelVersion := selectedModel; g_seed := Some seed;
                     g_promptTokens := 0; g_qualityWarnings := [];
                     g_status := PENDING; g_errorReason := None; g_imageKey := None;
                     g_jsonConfig := None |} in
                (RequestCreated generation,
                 {| users := users store;
                    generations := (generations store ++ [generation])%list;
                    createdToday :=
                      fun g => String.eqb (g_id g) (newId fresh) || createdToday store g;
                    cache := cachePut (Fingerprint.cacheKey fingerprint) (g_id generation)
                               (cache store) |})
            end
      end
  end.

End Controller.

(** ** Pixel passes over raw RGBA buffers *)

Module Raster.
Import JsNum.
Local Open Scope Z_scope.

(** The result of [sharp(buffer).ensureAlpha().raw().toBuffer()]: four
    samples per pixel, row after row. *)
Record RawImage := {
  data : list Z;
  width : Z;
  height : Z
}.

(** [data[i]] *)
Definition byteAt (data : list Z) (i : Z) : option Z :=
  if i <? 0 then None else nth_error data (Z.to_nat i).

Fixpoint replaceNth (n : nat) (v : Z) (l : list Z) : list Z :=
  match l, n with
  | [], _ => []
  | _ :: rest, O => v :: rest
  | x :: rest, S n' => x :: replaceNth n' v rest
  end.

(** [output[i] = v]; an index outside the buffer is ignored. *)
Definition setByte (output : list Z) (i : Z) (v : Z) : list Z :=
  if i <? 0 then output else replaceNth (Z.to_nat i) v output.

(** The sample stored for a value that may be [undefined]. *)
Definition sampleOr0 (v : option Z) : Z :=
  match v with Some x => x | None => 0 end.

(** [alpha <= 16]; the comparison is false for [undefined]. *)
Definition atMost16 (alpha : option Z) : bool :=
  match alpha with Some a => a <=? 16 | None => false end.

(** [const pixelOffset = (x, y, width) => (y * width + x) * 4] *)
Definition pixelOffset (x y width : Z) : Z := (y * width + x) * 4.

(** [0, 1, ..., n - 1], the values a counting [for] loop runs through. *)
Definition zrange (n : Z) : list Z := map Z.of_nat (seq 0 (Z.to_nat n)).

(** [for (localY ...) for (localX ...)] over one frame cell. *)
Definition forCell {A : Type} (rowsN colsN : Z) (body : A -> Z -> Z -> A) (init : A) : A :=
  fold_left
    (fun acc localY => fold_left (fun acc localX => body acc localY localX) (zrange colsN) acc)
    (zrange rowsN) init.

Record FrameOccupancy := {
  frameIndex : Z;
  originX : Z;
  originY : Z;
  pixelCount : Z;
  minX : Z;
  minY : Z;
  maxX : Z;
  maxY : Z
}.

Definition MIN_FRAME_FILL_RATIO : Q := 15 # 1000.
Definition OPAQUE_PIXEL_ALPHA_THRESHOLD : Z := 16.

(** The running [pixelCount, minX, minY, maxX, maxY] of one frame scan. *)
Record Bounds := {
  b_count : Z;
  b_minX : Z;
  b_minY : Z;
  b_maxX : Z;
  b_maxY : Z
}.

Definition scanPixel (data : list Z) (width originX originY : Z)
    (acc : Bounds) (localY localX : Z) : Bounds :=
  let x := originX + localX in
  let y := originY + localY in
  let offset := (y * width + x) * 4 in
  if atMost16 (byteAt data (offset + 3)) then acc
  else
    {| b_count := b_count acc + 1;
       b_minX := Z.min (b_minX acc) localX;
       b_minY := Z.min (b_minY acc) localY;
       b_maxX := Z.max (b_maxX acc) localX;
       b_maxY := Z.max (b_maxY acc) localY |}.

Definition scanFrame (data : list Z) (width spriteSize originX originY : Z) : Bounds :=
  forCell spriteSize spriteSize (scanPixel data width originX originY)
    {| b_count := 0; b_minX := spriteSize; b_minY := spriteSize; b_maxX := -1; b_maxY := -1 |}.

Definition frameOriginX (frameIndex columns spriteSize : Z) : Z :=
  Z.rem frameIndex columns * spriteSize.

Definition frameOriginY (frameIndex columns spriteSize : Z) : Z :=
  (frameIndex / columns) * spriteSize.

Definition occupancyOf (data : list Z) (width spriteSize columns frameIndex : Z)
    : FrameOccupancy :=
  let originX := frameOriginX frameIndex columns spriteSize in
  let originY := frameOriginY frameIndex columns spriteSize in
  let b := scanFrame data width spriteSize originX originY in
  {| frameIndex := frameIndex;
     originX := originX;
     originY := originY;
     pixelCount := b_count b;
     minX := Z.max 0 (b_minX b);
     minY := Z.max 0 (b_minY b);
     maxX := Z.max 0 (b_maxX b);
     maxY := Z.max 0 (b_maxY b) |}.

Definition findFrameOccupancy (data : list Z) (width spriteSize columns frameCount rows : Z)
    : list FrameOccupancy :=
  let totalSlots := columns * rows in
  let activeFrames := Z.max 1 (Z.min frameCount totalSlots) in
  map (occupancyOf data width spriteSize columns) (zrange activeFrames).

(** [candidates.reduce(..., candidates[0])]; [None] is the [undefined]
    an empty array gives. *)
Definition selectNearestDonorFrame (targetFrame : Z) (candidates : list FrameOccupancy)
    : option FrameOccupancy :=
  match candidates with
  | [] => None
  | first :: _ =>
      Some (fold_left
              (fun best candidate =>
                 let distance := Z.abs (frameIndex candidate - targetFrame) in
                 let currentDistance := Z.abs (frameIndex best - targetFrame) in
                 if distance <? currentDistance then candidate else best)
              candidates first)
  end.

(** [const toByte = (value) => Math.min(255, Math.max(0, value))] *)
Definition toByte (value : Z) : Z := Z.min 255 (Z.max 0 value).

(** [Math.floor(n * 0.08)] for an integer [n]. *)
Definition floorEightPercent (n : Z) : Z := Qfloor (inject_Z n * (8 # 100)).

(** *** Frame repair ([repairNearEmptyFrames]) *)

Record RepairResult := {
  buffer : RawImage;
  repairedSlots : nat;
  repairedFrameIndices : list Z
}.

(** [Math.max(1, Math.floor(spriteSize * spriteSize * MIN_FRAME_FILL_RATIO))] *)
Definition targetMinFillPixels (spriteSize : Z) : Z :=
  Z.max 1 (Qfloor (inject_Z (spriteSize * spriteSize) * MIN_FRAME_FILL_RATIO)).

(** The part of the donor's box that is copied: the box shrunk by the
    inset on each side (lines 727-734). *)
Record DonorCrop := {
  donorMinX : Z;
  donorMinY : Z;
  donorMaxX : Z;
  donorMaxY : Z
}.

Definition insetFor (boxSize : Z) : Z := Z.min 1 (Z.max 0 (floorEightPercent boxSize)).

Definition cropDonor (donor : FrameOccupancy) : DonorCrop :=
  let insetX := insetFor (maxX donor - minX donor + 1) in
  let insetY := insetFor (maxY donor - minY donor + 1) in
  {| donorMinX := minX donor + insetX;
     donorMinY := minY donor + insetY;
     donorMaxX := Z.max (minX donor) (maxX donor - insetX);
     donorMaxY := Z.max (minY donor) (maxY donor - insetY) |}.

Definition donorWidth (crop : DonorCrop) : Z := donorMaxX crop - donorMinX crop + 1.
Definition donorHeight (crop : DonorCrop) : Z := donorMaxY crop - donorMinY crop + 1.

(** Where the copy starts in the sheet (lines 740-751). *)
Definition destStartX (spriteSize : Z) (emptyFrame : FrameOccupancy) (crop : DonorCrop) : Z :=
  let jitterX := Z.rem (frameIndex emptyFrame) 3 - 1 in
  let destCenterX := spriteSize / 2 + jitterX in
  Z.max (originX emptyFrame)
    (Z.min (originX emptyFrame + spriteSize - donorWidth crop)
       (originX emptyFrame + destCenterX - donorWidth crop / 2)).

Definition destStartY (spriteSize : Z) (emptyFrame : FrameOccupancy) (crop : DonorCrop) : Z :=
  let jitterY := Z.rem (frameIndex emptyFrame / 3) 3 - 1 in
  let destCenterY := spriteSize / 2 + jitterY in
  Z.max (originY emptyFrame)
    (Z.min (originY emptyFrame + spriteSize - donorHeight crop)
       (originY emptyFrame + destCenterY - donorHeight crop / 2)).

(** The body of the two copy loops (lines 758-778), on the pair
    [(output, copiedPixels)]. *)
Definition copyPixel (image : RawImage) (spriteSize : Z)
    (emptyFrame donor : FrameOccupancy) (crop : DonorCrop)
    (acc : list Z * Z) (localY localX : Z) : list Z * Z :=
  let '(output, copiedPixels) := acc in
  let colorShift := Z.rem (frameIndex emptyFrame + frameIndex donor) 3 - 1 in
  let sourceX := originX donor + donorMinX crop + localX in
  let sourceY := originY donor + donorMinY crop + localY in
  if (sourceX <? 0) || (width image <=? sourceX) || (sourceY <? 0) || (height image <=? sourceY)
  then acc
  else
    let sourceOffset := (sourceY * width image + sourceX) * 4 in
    let sourceAlpha := byteAt (data image) (sourceOffset + 3) in
    if atMost16 sourceAlpha then acc
    else
      let destinationX := destStartX spriteSize emptyFrame crop + localX in
      let destinationY := destStartY spriteSize emptyFrame crop + localY in
      if (destinationX <? originX emptyFrame) || (destinationY <? originY emptyFrame) then acc
      else if (originX emptyFrame + spriteSize <=? destinationX)
              || (originY emptyFrame + spriteSize <=? destinationY) then acc
      else
        let destinationOffset := (destinationY * width image + destinationX) * 4 in
        let shifted (k : Z) :=
          match byteAt (data image) (sourceOffset + k) with
          | Some v => toByte (v + colorShift)
          | None => 0
          end in
        let output := setByte output destinationOffset (shifted 0) in
        let output := setByte output (destinationOffset + 1) (shifted 1) in
        let output := setByte output (destinationOffset + 2) (shifted 2) in
        let output := setByte output (destinationOffset + 3) (sampleOr0 sourceAlpha) in
        (output, copiedPixels + 1).

(** One turn of [for (const emptyFrame of nearEmptyFrames)], on the pair
    [(output, repairedFrameIndices)]. *)
Definition repairFrame (image : RawImage) (spriteSize : Z)
    (nonEmptyFrames : list FrameOccupancy)
    (acc : list Z * list Z) (emptyFrame : FrameOccupancy) : list Z * list Z :=
  let '(output, repaired) := acc in
  match selectNearestDonorFrame (frameIndex emptyFrame) nonEmptyFrames with
  | None => acc
  | Some donor =>
      if pixelCount donor =? 0 then acc
      else
        let crop := cropDonor donor in
        if (donorWidth crop <=? 0) || (donorHeight crop <=? 0) then acc
        else
          let '(output, copiedPixels) :=
            forCell (donorHeight crop) (donorWidth crop)
              (copyPixel image spriteSize emptyFrame donor crop) (output, 0) in
          if 0 <? copiedPixels
          then (output, (repaired ++ [frameIndex emptyFrame])%list)
          else (output, repaired)
  end.

Definition isNearEmpty (spriteSize : Z) (frame : FrameOccupancy) : bool :=
  pixelCount frame <? targetMinFillPixels spriteSize.

Definition repairNearEmptyFrames (image : RawImage) (spriteSize columns rows frameCount : Z)
    : RepairResult :=
  let frameSummaries :=
    findFrameOccupancy (data image) (width image) spriteSize columns frameCount rows in
  let nonEmptyFrames := filter (fun frame => negb (isNearEmpty spriteSize frame)) frameSummaries in
  let nearEmptyFrames := filter (isNearEmpty spriteSize) frameSummaries in
  let unchanged := {| buffer := image; repairedSlots := 0; repairedFrameIndices := [] |} in
  if (List.length nearEmptyFrames =? 0)%nat || (List.length nonEmptyFrames =? 0)%nat
  then unchanged
  else
    let '(output, repaired) :=
      fold_left (repairFrame image spriteSize nonEmptyFrames) nearEmptyFrames (data image, []) in
    if (List.length repaired =? 0)%nat then unchanged
    else
      {| buffer := {| data := output; width := width image; height := height image |};
         repairedSlots := List.length repaired;
         repairedFrameIndices := repaired |}.

(** *** Frame stabilizer ([stabilizeSpriteSheet]) *)

Record FrameBox := {
  box_minX : Z;
  box_minY : Z;
  box_maxX : Z;
  box_maxY : Z;
  box_width : Z;
  box_height : Z
}.

(** The first pass over one frame (lines 270-302): its opaque bounding
    box, or [None] when the frame has no opaque pixel.  The scan is the
    one of [findFrameOccupancy] without the final [Math.max(0, ...)]. *)
Definition boxOf (data : list Z) (width spriteSize columns frameIndex : Z) : option FrameBox :=
  let b :=
    scanFrame data width spriteSize
      (frameOriginX frameIndex columns spriteSize) (frameOriginY frameIndex columns spriteSize) in
  if (b_maxX b <? b_minX b) || (b_maxY b <? b_minY b) then None
  else
    Some {| box_minX := b_minX b; box_minY := b_minY b;
            box_maxX := b_maxX b; box_maxY := b_maxY b;
            box_width := b_maxX b - b_minX b + 1;
            box_height := b_maxY b - b_minY b + 1 |}.

Fixpoint insertQ (x : Q) (sorted : list Q) : list Q :=
  match sorted with
  | [] => [x]
  | y :: rest => if Qle_bool x y then x :: sorted else y :: insertQ x rest
  end.

(** [[...values].sort((a, b) => a - b)] *)
Definition sortQ (values : list Q) : list Q := fold_right insertQ [] values.

Definition median (values : list Q) : Q :=
  match values with
  | [] => 0%Q
  | _ :: _ =>
      let sorted := sortQ values in
      let middle := (List.length sorted / 2)%nat in
      if Nat.odd (List.length sorted) then List.nth middle sorted 0%Q
      else ((List.nth (middle - 1) sorted 0%Q + List.nth middle sorted 0%Q) / 2)%Q
  end.

Definition clampZ (value lo hi : Z) : Z := Z.min hi (Z.max lo value).

(** [Math.max(2, Math.floor(spriteSize * 0.06))] *)
Definition innerInsetOf (spriteSize : Z) : Z :=
  Z.max 2 (Qfloor (inject_Z spriteSize * (6 # 100))).

Definition maxFrameContentSizeOf (spriteSize : Z) : Z :=
  let innerInset := innerInsetOf spriteSize in
  let frameInset := Z.max innerInset (Qfloor (inject_Z spriteSize * (1 # 100))) in
  Z.max 2 (spriteSize - 2 * frameInset).

(** [Math.min(1, maxFrameContentSize / Math.max(1, maxFrameDimension))] *)
Definition baseScaleOf (spriteSize maxFrameDimension : Z) : Q :=
  Qmin 1 (inject_Z (maxFrameContentSizeOf spriteSize) / inject_Z (Z.max 1 maxFrameDimension)).

(** [safeCenterX] and [safeCenterY] (lines 309-320). *)
Definition safeCenterOf (spriteSize maxFrameDimension : Z) (centers : list Q) : Q :=
  let innerInset := inject_Z (innerInsetOf spriteSize) in
  let baseScale := baseScaleOf spriteSize maxFrameDimension in
  let paddedHalfContent :=
    clamp (inject_Z (Qfloor ((inject_Z maxFrameDimension * baseScale) / 2))) 0
      (inject_Z spriteSize / 2) in
  clamp (median centers) (innerInset + paddedHalfContent)
    (Qmax (innerInset + paddedHalfContent)
       (inject_Z spriteSize - innerInset - paddedHalfContent)).

(** [Math.max(1, Math.floor(extent * scale))] *)
Definition scaledExtent (scale : Q) (extent : Z) : Z :=
  Z.max 1 (Qfloor (inject_Z extent * scale)).

(** [destMinX] and [destMinY] (lines 331-348). *)
Definition destMinOf (spriteSize : Z) (safeCenter : Q) (scaled : Z) : Z :=
  let availableDestination := spriteSize - scaled in
  let insetBudget := Z.max 0 (innerInsetOf spriteSize) in
  let effectiveInset := Z.min insetBudget (Z.max 0 availableDestination / 2) in
  let maxDest := Z.max 0 (availableDestination - effectiveInset) in
  clampZ (mathRound (safeCenter - inject_Z scaled / 2)) effectiveInset maxDest.

(** [Math.min(extent - 1, Math.floor(local / Math.max(scale, 0.001)))] *)
Definition sourceLocalOf (scale : Q) (extent local : Z) : Z :=
  Z.min (extent - 1) (Qfloor (inject_Z local / Qmax scale (1 # 1000))).

(** The body of the two painting loops (lines 351-367). *)
Definition paintPixel (image : RawImage) (originX originY : Z) (frameBox : FrameBox)
    (scale : Q) (destMinX destMinY : Z) (output : list Z) (localY localX : Z) : list Z :=
  let sourceLocalY := sourceLocalOf scale (box_height frameBox) localY in
  let sourceLocalX := sourceLocalOf scale (box_width frameBox) localX in
  let sourceX := originX + box_minX frameBox + sourceLocalX in
  let sourceY := originY + box_minY frameBox + sourceLocalY in
  let sourceOffset := pixelOffset sourceX sourceY (width image) in
  let alpha := byteAt (data image) (sourceOffset + 3) in
  if atMost16 alpha then output
  else
    let destX := originX + destMinX + localX in
    let destY := originY + destMinY + localY in
    if (width image <=? destX) || (height image <=? destY) then output
    else
      let destOffset := pixelOffset destX destY (width image) in
      let output := setByte output destOffset (sampleOr0 (byteAt (data image) sourceOffset)) in
      let output :=
        setByte output (destOffset + 1) (sampleOr0 (byteAt (data image) (sourceOffset + 1))) in
      let output :=
        setByte output (destOffset + 2) (sampleOr0 (byteAt (data image) (sourceOffset + 2))) in
      setByte output (destOffset + 3) (sampleOr0 (byteAt (data image) (sourceOffset + 3))).

(** One turn of the second loop over the frames (lines 323-370). *)
Definition paintFrame (image : RawImage) (spriteSize columns : Z) (baseScale safeCenterX
    safeCenterY : Q) (output : list Z) (entry : Z * option FrameBox) : list Z :=
  match snd entry with
  | None => output
  | Some frameBox =>
      let originX := frameOriginX (fst entry) columns spriteSize in
      let originY := frameOriginY (fst entry) columns spriteSize in
      let scale := Qmin 1 baseScale in
      let scaledWidth := scaledExtent scale (box_width frameBox) in
      let scaledHeight := scaledExtent scale (box_height frameBox) in
      let destMinX := destMinOf spriteSize safeCenterX scaledWidth in
      let destMinY := destMinOf spriteSize safeCenterY scaledHeight in
      forCell scaledHeight scaledWidth
        (paintPixel image originX originY frameBox scale destMinX destMinY) output
  end.

Definition centerOf (lo hi : Z) : Q := (inject_Z (lo + hi) / 2)%Q.

Definition stabilizeSpriteSheet (image : RawImage) (spriteSize columns rows frameCount : Z)
    : RawImage :=
  let totalSlots := columns * rows in
  let activeFrames := Z.min totalSlots (Z.max 1 frameCount) in
  let frames := zrange activeFrames in
  let boxes :=
    map (fun frameIndex =>
           (frameIndex, boxOf (data image) (width image) spriteSize columns frameIndex))
      frames in
  let found := flat_map (fun entry => match snd entry with Some b => [b] | None => [] end) boxes in
  let centersX := map (fun b => centerOf (box_minX b) (box_maxX b)) found in
  let centersY := map (fun b => centerOf (box_minY b) (box_maxY b)) found in
  let maxFrameDimension :=
    fold_left (fun m b => Z.max (Z.max m (box_width b)) (box_height b)) found 0 in
  if (List.length centersX =? 0)%nat then image
  else
    let baseScale := baseScaleOf spriteSize maxFrameDimension in
    let safeCenterX := safeCenterOf spriteSize maxFrameDimension centersX in
    let safeCenterY := safeCenterOf spriteSize maxFrameDimension centersY in
    let blank := repeat 0 (List.length (data image)) in
    {| data :=
         fold_left (paintFrame image spriteSize columns baseScale safeCenterX safeCenterY)
           boxes blank;
       width := width image;
       height := height image |}.

End Raster.

(** ** The stall counter, as the specification describes it *)

Module ClaimSpecStall.
Import JsNum Controller.

(** An attempt counts as a failure when the quality gate or the settings
    verification rejected it. *)
Definition failing (entry : AttemptLog) : bool :=
  negb (log_qualityOk entry) || negb (passed (c_settingsVerification (log_candidate entry))).

(** The most recent failing attempt among [entries], oldest first. *)
Fixpoint lastFailing (entries : list AttemptLog) : option AttemptLog :=
  match entries with
  | [] => None
  | entry :: rest =>
      match lastFailing rest with
      | Some later => Some later
      | None => if failing entry then Some entry else None
      end
  end.

(** A stalled failure: a failing attempt with the warning signature of
    the prior failing attempt and a quality score at most 0.75 above the
    prior failing score. *)
Definition stalledAgainst (prior : option AttemptLog) (entry : AttemptLog) : bool :=
  failing entry
  && match prior with
     | Some p =>
         String.eqb (c_warningSignature (log_candidate p))
           (c_warningSignature (log_candidate entry))
         && Qleb (c_qualityScore (log_candidate entry))
              (c_qualityScore (log_candidate p) + (75 # 100))
     | None => false
     end.

(** The stall counter the claim describes, run over the attempts in
    order: a stalled failure increments it, any other attempt resets it. *)
Definition stallStep (acc : list AttemptLog * nat) (entry : AttemptLog)
    : list AttemptLog * nat :=
  ((fst acc ++ [entry])%list,
   if stalledAgainst (lastFailing (fst acc)) entry then S (snd acc) else 0%nat).

Definition stallCounterAfter (entries : list AttemptLog) : nat :=
  snd (fold_left stallStep entries ([], 0%nat)).

(** The locals [isFailure] and [isStalled] of every attempt are the
    notions above. *)
Definition flagsAgree (entries : list AttemptLog) : Prop :=
  forall earlier entry later,
    entries = (earlier ++ entry :: later)%list ->
    log_isFailure entry = failing entry
    /\ log_isStalled entry = stalledAgainst (lastFailing earlier) entry.

End ClaimSpecStall.

(** ** Notions used to reason about one run of the controller *)

Module ControllerSpec.
Import JsNum Controller.
Local Open Scope string_scope.

Section Run.
Context `{crypto : Crypto} `{promptBuilder : PromptBuilder}.
Variable env : Env.
Variable world : World.
Variable generation : SpriteGeneration.

(** The locals that only the ranking part of an attempt assigns. *)
Definition sameVerdict (st st' : LoopState) : Prop :=
  bestCandidate st' = bestCandidate st
  /\ lastFailureSignature st' = lastFailureSignature st
  /\ lastFailureScore st' = lastFailureScore st
  /\ failureStallCount st' = failureStallCount st
  /\ stopReason st' = stopReason st
  /\ finalBuffer st' = finalBuffer st
  /\ attemptsExecuted st' = attemptsExecuted st.

(** How the model part of the locals moves while the backend is called. *)
Definition modelStep (st st' : LoopState) : Prop :=
  (activeModel st' = activeModel st /\ maxAttempts st' = maxAttempts st)
  \/ (activeModel st' = MODEL_ACCESS_FALLBACK
      /\ maxAttempts st' = ceilingFor env MODEL_ACCESS_FALLBACK).

(** The state and trace with which an attempt reaches its ranking part,
    or throws. *)
Definition prepared (st1 : LoopState) (tr : Trace) (st2 : LoopState) (tr2 : Trace) : Prop :=
  sameVerdict st1 st2
  /\ modelStep st1 st2
  /\ history tr2 = history tr
  /\ (backendRequests tr + 1 <= backendRequests tr2)%nat.

Definition attemptStart (attempt : nat) (st : LoopState) : LoopState :=
  beginAttempt attempt
    (replaceSeedLine (promptForAttempt st)
       (attemptSeedForAttempt (g_seed generation) (g_id generation) attempt)) st.

Definition attemptCostOf (attempt : nat) (st : LoopState) : Q :=
  buildAttemptCostEstimate (activeModel st) (promptForAttempt (attemptStart attempt st))
    (estimatedOutputTokensPerAttempt generation).

(** The budget test at the head of an attempt. *)
Definition budgetBlocks (attempt : nat) (st : LoopState) : bool :=
  Qleb (remainingBudgetUsd st) 0 || Qltb (remainingBudgetUsd st) (attemptCostOf attempt st).

(** The values [settle] computes on the way: the candidate of the
    attempt, the locals [isFailure] and [isStalled], the locals after the
    stall counters are assigned, and the entry added to the history. *)
Definition candidateOf (attempt : nat) (usage : TokenUsage) (j : Judged) : AttemptCandidate :=
  let attemptWarnings :=
    dedupeWarnings (Quality.reasons (j_quality j) ++ failures (j_settings j))%list in
  {| c_attempt := attempt;
     c_buffer := j_buffer j;
     c_qualityWarnings := attemptWarnings;
     c_qualityDiagnostics := Quality.diagnostics (j_quality j);
     c_settingsVerification := j_settings j;
     c_tokenUsage := usage;
     c_score := rankedScore (j_quality j) (j_settings j);
     c_warningSignature := buildWarningSignature attemptWarnings;
     c_qualityScore := scoreOf (j_quality j) |}.

Definition isFailureOf (j : Judged) : bool :=
  negb (Quality.ok (j_quality j)) || negb (passed (j_settings j)).

Definition isStalledOf (attempt : nat) (usage : TokenUsage) (j : Judged) (st : LoopState) : bool :=
  isFailureOf j
  && (1 <? attempt)%nat
  && match lastFailureSignature st with
     | Some signature => String.eqb signature (c_warningSignature (candidateOf attempt usage j))
     | None => false
     end
  && match lastFailureScore st with
     | Some lastScore =>
         Qleb (c_qualityScore (candidateOf attempt usage j)) (lastScore + (75 # 100))
     | None => false
     end.

Definition judgedState (attempt : nat) (usage : TokenUsage) (j : Judged) (st : LoopState)
    : LoopState :=
  let candidate := candidateOf attempt usage j in
  let best := nextBest (bestCandidate st) candidate in
  if isFailureOf j
  then setJudgement best (Some (c_warningSignature candidate)) (Some (c_qualityScore candidate))
         (if isStalledOf attempt usage j st then (failureStallCount st + 1)%nat else 0%nat) st
  else setJudgement best None None 0%nat st.

Definition logOf (attempt : nat) (usage : TokenUsage) (j : Judged) (st : LoopState) : AttemptLog :=
  {| log_candidate := candidateOf attempt usage j;
     log_qualityOk := Quality.ok (j_quality j);
     log_isFailure := isFailureOf j;
     log_isStalled := isStalledOf attempt usage j st |}.

(** What the decision after the loop leaves untouched. *)
Definition settledFrom (st0 : LoopState) (tr0 : Trace) (st : LoopState) (tr : Trace) : Prop :=
  bestCandidate st = bestCandidate st0
  /\ stopReason st = stopReason st0
  /\ failureStallCount st = failureStallCount st0
  /\ activeModel st = activeModel st0
  /\ maxAttempts st = maxAttempts st0
  /\ attemptsExecuted st = attemptsExecuted st0
  /\ history tr = history tr0
  /\ backendRequests tr = backendRequests tr0.

(** The trace with which the [try] block starts. *)
Definition startTrace : Trace :=
  withRow (rowProcessing generation)
    {| row := generation; backendRequests := 0; cacheWrites := []; history := [] |}.

(** The attempt loop ended, by leaving the loop or by a throw. *)
Definition loopEndsWith (st : LoopState) (tr : Trace) : Prop :=
  attemptLoop env world generation (configuredMaxAttempts env) 1
    (initialState env generation) startTrace = LoopFinished st tr
  \/ exists e,
       attemptLoop env world generation (configuredMaxAttempts env) 1
         (initialState env generation) startTrace = LoopThrew e st tr.

(** The attempt ceiling is the one of the active model, and the loop
    counter is one ahead of [attemptsExecuted]. *)
Definition ceilingResolved (st : LoopState) : Prop :=
  maxAttempts st = ceilingFor env (activeModel st)
  /\ (attemptsExecuted st <= maxAttempts st)%nat.

Definition atLoopHead (attempt : nat) (st : LoopState) : Prop :=
  ceilingResolved st /\ attempt = S (attemptsExecuted st).

(** The invariant of the stall counters at the head of an attempt and at
    the end of the loop. *)
Definition stallHead (attempt : nat) (st : LoopState) (tr : Trace) : Prop :=
  attempt = S (List.length (history tr))
  /\ stopReason st = None
  /\ ClaimSpecStall.flagsAgree (history tr)
  /\ failureStallCount st = ClaimSpecStall.stallCounterAfter (history tr)
  /\ lastFailureSignature st
     = option_map (fun p => c_warningSignature (log_candidate p))
         (ClaimSpecStall.lastFailing (history tr))
  /\ lastFailureScore st
     = option_map (fun p => c_qualityScore (log_candidate p))
         (ClaimSpecStall.lastFailing (history tr))
  /\ (forall p s, history tr = (p ++ s)%list ->
                  (ClaimSpecStall.stallCounterAfter p < 2)%nat).

Definition stallEnd (st : LoopState) (tr : Trace) : Prop :=
  ClaimSpecStall.flagsAgree (history tr)
  /\ failureStallCount st = ClaimSpecStall.stallCounterAfter (history tr)
  /\ (stopReason st = Some quality_stagnation
      <-> (2 <= ClaimSpecStall.stallCounterAfter (history tr))%nat)
  /\ (forall p s, history tr = (p ++ s)%list -> s <> [] ->
                  (ClaimSpecStall.stallCounterAfter p < 2)%nat).

End Run.

End ControllerSpec.

(** ** Notions used to state the properties *)

Module ClaimSpec.
Import JsNum Controller.






End ClaimSpec.

(** ** Sample collaborators and runs *)

Module Samples.
Import Controller.
Local Open Scope string_scope.

(** A stand-in digest (the code units of the text, padded); any function
    serves where only the control flow is observed. *)
#[export] Instance sampleCrypto : Crypto :=
  {| sha256Digest :=
       fun text => map (fun c => Z.of_nat (nat_of_ascii c)) (list_ascii_of_string (text ++ "0000")) |}.

#[export] Instance samplePromptBuilder : PromptBuilder :=
  {| buildSpritePrompt := fun theme _ _ _ _ _ _ _ _ _ => "Theme: " ++ theme;
     buildQualityCorrectionPrompt := fun base _ _ _ _ _ => base ++ " (corrected)" |}.

(** The defaults of [config/env.ts]. *)
Definition sampleEnv : Env :=
  {| QUALITY_MIN_SCORE := 85;
     QUALITY_MAX_ATTEMPTS := 4;
     MAX_ESTIMATED_GENERATION_COST_USD := 100;
     STRICT_QUALITY_GATE := true;
     OPENAI_IMAGE_MODEL := "gpt-image-1" |}.


Definition sampleGeneration : SpriteGeneration :=
  {| g_id := "gen-1"; g_userId := "user-1";
     g_prompt := "Theme: a walking knight";
     g_themePrompt := "a walking knight";
     g_styleIntensity := 70; g_frameCount := 4; g_spriteSize := 64;
     g_projectionType := TWO_D; g_animationType := "walk";
     g_columns := 4; g_rows := 1;
     g_modelVersion := "gpt-4o"; g_seed := Some 7%Z;
     g_promptTokens := 0; g_qualityWarnings := [];
     g_status := PENDING; g_errorReason := None; g_imageKey := None;
     g_jsonConfig := None |}.

(** A sheet whose third frame is empty. *)
Definition sampleMetrics : Quality.QualityMetrics :=
  {| Quality.analyzedFrameCount := 4; Quality.expectedFrameCount := 4;
     Quality.transparentPixelRatio := 1 # 10; Quality.translucentPixelRatio := 0;
     Quality.quantizedColorCount := 30; Quality.outerEdgeOpaqueRatio := 0;
     Quality.maxBoundaryBleedRatio := 0; Quality.emptyFrameCount := 1;
     Quality.overcrowdedFrameCount := 0; Quality.clippedFrameCount := 0;
     Quality.maxAnchorDriftPx := 0; Quality.maxHorizontalDriftPx := 0;
     Quality.maxVerticalDriftPx := 0; Quality.scaleVarianceRatio := 0;
     Quality.meanConsecutiveFrameDelta := 2 # 100;
     Quality.minConsecutiveFrameDelta := 0; Quality.maxConsecutiveFrameDelta := 0;
     Quality.distinctPairRatio := 1 |}.

Definition samplePixels : Quality.PixelAnalysis :=
  {| Quality.pa_width := 256; Quality.pa_height := 64;
     Quality.pa_reasons := ["Detected 1 nearly empty frames (2)"];
     Quality.pa_metrics := sampleMetrics;
     Quality.pa_hasTransparency := true |}.

Definition sampleFacts : VerifierFacts :=
  {| sheetWidth := 256; sheetHeight := 64; hasTransparency := true;
     nonEmptyFrameCount := 3; unusedSlotsWithContent := 0 |}.

Definition sampleSheet : Evaluated :=
  {| ev_image := 1%nat; ev_pixels := samplePixels; ev_facts := sampleFacts |}.

Definition serverError : Thrown :=
  {| isError := true; isApiError := false; message := "upstream unavailable";
     status := Some 503%Z |}.

Definition databaseError : Thrown :=
  {| isError := true; isApiError := false; message := "connection terminated";
     status := None |}.

(** Every attempt gets an image with the same empty third frame. *)
Definition steadyIO : AttemptIO :=
  {| io_reply := ReplyOk None PayloadB64;
     io_fallbackReply := ReplyOk None PayloadB64;
     io_persistModel := None;
     io_pipeline := PipelineOk sampleSheet 0 sampleSheet |}.

(** The active model answers 503; the fallback model delivers. *)
Definition fallbackIO : AttemptIO :=
  {| io_reply := ReplyThrows serverError;
     io_fallbackReply := ReplyOk None PayloadB64;
     io_persistModel := None;
     io_pipeline := PipelineOk sampleSheet 0 sampleSheet |}.

Definition worldWith (io : nat -> AttemptIO) (processing : option Thrown) : World :=
  {| findUnique := Some sampleGeneration;
     markProcessing := processing;
     attemptIO := io;
     reverify := inr sampleFacts;
     persistFailed := None;
     uploadImage := None;
     persistCompleted := None;
     cacheSet := None;
     hydrate := None;
     recordFailure := None |}.

Definition steadyWorld : World := worldWith (fun _ => steadyIO) None.

Definition fallbackWorld : World := worldWith (fun _ => fallbackIO) None.

(** The database rejects the update that marks the row as processing. *)
Definition brokenWorld : World := worldWith (fun _ => steadyIO) (Some databaseError).

End Samples.

(** ** Notions used to state the properties of the fingerprint *)

Module FingerprintSpec.
Import JsNum Fingerprint.
Local Open Scope string_scope.





End FingerprintSpec.

(** ** Notions used to state the properties of [createGenerationRequest] *)

Module RequestSpec.
Import JsNum Controller.
Local Open Scope string_scope.

Section Plan.
Context `{crypto : Crypto} `{promptBuilder : PromptBuilder}.
Variable env : Env.
Variable fresh : Fresh.
Variable userId : string.
Variable input : GenerateSpriteInput.
Variable themePrompt : string.

(** The values the function derives from a request before it looks at
    the cache (lines 979-1034). *)
Definition plannedColumns : Z :=
  fst (resolveLayout (in_frameCount input) (in_layout input) (in_columns input)).

Definition plannedRows : Z :=
  snd (resolveLayout (in_frameCount input) (in_layout input) (in_columns input)).

Definition plannedSeed : Z :=
  match in_seed input with Some s => s | None => randomSeed fresh end.

Definition plannedModel : string :=
  match in_model input with Some m => m | None => OPENAI_IMAGE_MODEL env end.

Definition plannedPrompt : string :=
  buildSpritePrompt themePrompt (in_spriteSize input) (in_frameCount input)
    (projectionToApi (in_projection input)) (in_animationType input)
    (in_styleIntensity input) plannedColumns plannedRows plannedSeed
    (compactPrompt (getModelProfile plannedModel)).

Definition plannedAttempts : nat :=
  Nat.min (mp_maxAttempts (getModelProfile plannedModel))
    (Nat.max 1 (QUALITY_MAX_ATTEMPTS env)).

Definition plannedCost : Q :=
  estimateCostUsd plannedModel (estimateTokens plannedPrompt * Z.of_nat plannedAttempts)
    (estimateOutputTokens (in_spriteSize input) plannedColumns plannedRows
     * Z.of_nat plannedAttempts).

Definition plannedFingerprint : string :=
  fingerprintOfRequest userId themePrompt input plannedColumns plannedRows plannedSeed
    plannedModel.

(** The row the function creates when the cache does not answer. *)
Definition plannedRow : SpriteGeneration :=
  {| g_id := newId fresh; g_userId := userId; g_prompt := plannedPrompt;
     g_themePrompt := themePrompt;
     g_styleIntensity := in_styleIntensity input;
     g_frameCount := in_frameCount input;
     g_spriteSize := in_spriteSize input;
     g_projectionType := in_projection input;
     g_animationType := in_animationType input;
     g_columns := plannedColumns; g_rows := plannedRows;
     g_modelVersion := plannedModel; g_seed := Some plannedSeed;
     g_promptTokens := 0; g_qualityWarnings := [];
     g_status := PENDING; g_errorReason := None; g_imageKey := None;
     g_jsonConfig := None |}.

(** The request passes the three checks made before the cache lookup. *)
Definition admitted (store : Store) (role : UserRole) : Prop :=
  assertDailyLimit store userId role = None
  /\ validatePromptStructure (in_prompt input) = inr themePrompt
  /\ Qltb (MAX_ESTIMATED_GENERATION_COST_USD env) plannedCost = false.

End Plan.

End RequestSpec.

(** ** Sample requests *)

Module RequestSamples.
Import Controller Samples.
Local Open Scope string_scope.






End RequestSamples.

(** ** Notions used to state the properties of the pixel passes *)

Module RasterSpec.
Import JsNum Raster.
Local Open Scope Z_scope.

(** [Math.abs(candidate.frameIndex - targetFrame)] *)
Definition distanceTo (target : Z) (frame : FrameOccupancy) : Z :=
  Z.abs (frameIndex frame - target).

(** [donor] is the first of the [candidates] at the smallest distance
    from [target]. *)
Definition nearestFirst (target : Z) (candidates : list FrameOccupancy)
    (donor : FrameOccupancy) : Prop :=
  exists before after,
    candidates = (before ++ donor :: after)%list
    /\ (forall c, In c before -> distanceTo target donor < distanceTo target c)
    /\ (forall c, In c after -> distanceTo target donor <= distanceTo target c).

(** The inset the specification describes: eight percent of the box
    dimension, rounded down. *)
Definition claimedInset (boxSize : Z) : Z := floorEightPercent boxSize.

Definition claimedCrop (donor : FrameOccupancy) : DonorCrop :=
  {| donorMinX := minX donor + claimedInset (maxX donor - minX donor + 1);
     donorMinY := minY donor + claimedInset (maxY donor - minY donor + 1);
     donorMaxX := maxX donor - claimedInset (maxX donor - minX donor + 1);
     donorMaxY := maxY donor - claimedInset (maxY donor - minY donor + 1) |}.

(** The inset the code applies: one pixel for a box dimension of
    thirteen pixels or more, none below. *)
Definition cappedInset (boxSize : Z) : Z := if 13 <=? boxSize then 1 else 0.

Definition cappedCrop (donor : FrameOccupancy) : DonorCrop :=
  {| donorMinX := minX donor + cappedInset (maxX donor - minX donor + 1);
     donorMinY := minY donor + cappedInset (maxY donor - minY donor + 1);
     donorMaxX := maxX donor - cappedInset (maxX donor - minX donor + 1);
     donorMaxY := maxY donor - cappedInset (maxY donor - minY donor + 1) |}.

(** The frames [repairNearEmptyFrames] tells apart (lines 706-707). *)
Definition frameSummariesOf (image : RawImage) (spriteSize columns rows frameCount : Z)
    : list FrameOccupancy :=
  findFrameOccupancy (data image) (width image) spriteSize columns frameCount rows.

Definition nonEmptyFramesOf (image : RawImage) (spriteSize columns rows frameCount : Z)
    : list FrameOccupancy :=
  filter (fun frame => negb (isNearEmpty spriteSize frame))
    (frameSummariesOf image spriteSize columns rows frameCount).

Definition nearEmptyFramesOf (image : RawImage) (spriteSize columns rows frameCount : Z)
    : list FrameOccupancy :=
  filter (isNearEmpty spriteSize) (frameSummariesOf image spriteSize columns rows frameCount).

(** The pixel [(x, y)] of the sheet lies in the cell of [frame]. *)
Definition inCell (spriteSize : Z) (frame : FrameOccupancy) (x y : Z) : Prop :=
  originX frame <= x < originX frame + spriteSize
  /\ originY frame <= y < originY frame + spriteSize.

(** The sample [k] of the pixel [(x, y)]. *)
Definition sampleAt (image : RawImage) (x y k : Z) : option Z :=
  byteAt (data image) (pixelOffset x y (width image) + k).

(** A buffer index that the code addresses as a sample of a pixel of the
    cell of [frame]. *)
Definition addressedIn (image : RawImage) (spriteSize : Z) (frame : FrameOccupancy)
    (i : Z) : Prop :=
  exists x y k,
    inCell spriteSize frame x y /\ 0 <= k < 4 /\ i = pixelOffset x y (width image) + k.

(** [alpha > 16] at the pixel [(x, y)]. *)
Definition opaqueAt (image : RawImage) (x y : Z) : bool :=
  negb (atMost16 (sampleAt image x y 3)).

(** The number of opaque pixels of the frame with index [frameIndex]. *)
Definition opaqueCount (image : RawImage) (spriteSize columns frameIndex : Z) : Z :=
  pixelCount (occupancyOf (data image) (width image) spriteSize columns frameIndex).

End RasterSpec.

(** ** Sample sheets *)

Module RasterSamples.
Import Raster.
Local Open Scope Z_scope.

Definition blankSheet (width height : Z) : RawImage :=
  {| data := repeat 0 (Z.to_nat (width * height * 4)); width := width; height := height |}.

(** An opaque red pixel written at [(x, y)]. *)
Definition putPixel (image : RawImage) (y x : Z) : RawImage :=
  let offset := pixelOffset x y (width image) in
  {| data :=
       setByte (setByte (setByte (setByte (data image) offset 240) (offset + 1) 16)
                  (offset + 2) 32) (offset + 3) 255;
     width := width image;
     height := height image |}.

(** The pixels [(x0, y)], ..., [(x0 + count - 1, y)] made opaque. *)
Definition putRun (image : RawImage) (y x0 count : Z) : RawImage :=
  fold_left (fun img dx => putPixel img y (x0 + dx)) (zrange count) image.

(** The opaque pixels of row [y], as their [x]. *)
Definition opaqueInRow (image : RawImage) (y : Z) : list Z :=
  filter (fun x => negb (atMost16 (byteAt (data image) (pixelOffset x y (width image) + 3))))
    (zrange (width image)).

(** Two frames of 32 pixels side by side; the first holds a run of 25
    pixels, the second is empty. *)
Definition wideDonorSheet : RawImage := putRun (blankSheet 64 32) 16 2 25.

(** A sheet of 32 by 33 pixels handed over as two frames of 32 pixels
    side by side: its first row is opaque. *)
Definition narrowSheet : RawImage := putRun (blankSheet 32 33) 0 0 32.

(** Two frames of 32 pixels side by side, holding runs of four and of
    five pixels. *)
Definition unevenSheet : RawImage :=
  putRun (putRun (blankSheet 64 32) 16 8 4) 16 40 5.

End RasterSamples.

(** ** A sample call of the quality scorer *)

Module QualitySamples.
Import Quality.
Local Open Scope Q_scope.




End QualitySamples.

(** * Properties *)

(** ** Facts about the number helpers *)

Module JsNumFacts.
Import JsNum.
Local Open Scope Q_scope.








End JsNumFacts.

(** ** The quality score *)

Module QualityFacts.
Import JsNum JsNumFacts Quality QualitySamples ClaimSpec.
Local Open Scope Q_scope.









End QualityFacts.

(** ** The attempt controller *)

Module ControllerFacts.
Import JsNum JsNumFacts Controller ClaimSpec ClaimSpecStall ControllerSpec Samples.
Local Open Scope string_scope.

Lemma profile_attempts_bounds (model : string) :
  (1 <= mp_maxAttempts (getModelProfile model) <= 4)%nat.
Proof.
  unfold getModelProfile, modelRates. cbn [find fst snd].
  repeat match goal with
         | |- context [String.eqb ?a ?b] => destruct (String.eqb a b)
         end; cbn; lia.
Qed.

Lemma fallback_profile_attempts :
  mp_maxAttempts (getModelProfile MODEL_ACCESS_FALLBACK) = 4%nat.
Proof. reflexivity. Qed.

Lemma deliver_model requests used prompt usage payload image :
  rawResult (deliver requests used prompt usage payload) = inr image ->
  modelUsed image = used.
Proof.
  unfold deliver. cbn [rawResult].
  destruct payload as [|[| |e]|]; intro H; inversion H; reflexivity.
Qed.

(** The backend adapter answers with the requested model or with the
    fallback model, and issues at least one request. *)
Lemma generateRawImage_model prompt model first fallback image :
  rawResult (generateRawImage prompt model first fallback) = inr image ->
  modelUsed image = model \/ modelUsed image = MODEL_ACCESS_FALLBACK.
Proof.
  unfold generateRawImage. destruct first as [usage payload|error].
  - intro H. left. eapply deliver_model, H.
  - match goal with |- context [if negb ?c then _ else _] => destruct c end; cbn [negb].
    + destruct fallback as [usage payload|e2].
      * intro H. right. eapply deliver_model, H.
      * cbn. discriminate.
    + cbn. discriminate.
Qed.

Lemma generateRawImage_requests prompt model first fallback :
  (1 <= requestsIssued (generateRawImage prompt model first fallback))%nat.
Proof.
  unfold generateRawImage, deliver. destruct first as [usage payload|error]; cbn; [lia|].
  match goal with |- context [if negb ?c then _ else _] => destruct c end; cbn [negb].
  - destruct fallback; cbn; lia.
  - cbn. lia.
Qed.

Lemma lastFailing_snoc entries entry :
  lastFailing (entries ++ [entry]) = if failing entry then Some entry else lastFailing entries.
Proof.
  induction entries as [|e rest IH]; simpl.
  - destruct (failing entry); reflexivity.
  - rewrite IH. destruct (failing entry); reflexivity.
Qed.

Lemma stallFold_seen entries seen n :
  fst (fold_left stallStep entries (seen, n)) = (seen ++ entries)%list.
Proof.
  revert seen n. induction entries as [|e rest IH]; intros seen n; cbn [fold_left].
  - rewrite app_nil_r. reflexivity.
  - unfold stallStep at 2. cbn [fst snd]. rewrite IH, <- app_assoc. reflexivity.
Qed.

Lemma stallCounterAfter_snoc entries entry :
  stallCounterAfter (entries ++ [entry])
  = if stalledAgainst (lastFailing entries) entry
    then S (stallCounterAfter entries) else 0%nat.
Proof.
  unfold stallCounterAfter. rewrite fold_left_app. cbn [fold_left].
  unfold stallStep at 1. cbn [snd]. rewrite stallFold_seen. reflexivity.
Qed.

Lemma flagsAgree_nil : flagsAgree [].
Proof.
  intros earlier entry later H. destruct earlier; discriminate H.
Qed.

Lemma flagsAgree_snoc entries entry :
  flagsAgree entries ->
  log_isFailure entry = failing entry ->
  log_isStalled entry = stalledAgainst (lastFailing entries) entry ->
  flagsAgree (entries ++ [entry]).
Proof.
  intros Hall Hf Hs earlier e later Heq.
  destruct (exists_last (l := e :: later)) as (front & final & Hlast); [discriminate|].
  assert (Hsplit : ((earlier ++ front) ++ [final] = entries ++ [entry])%list).
  { rewrite <- app_assoc, <- Hlast. symmetry. exact Heq. }
  apply app_inj_tail in Hsplit. destruct Hsplit as [Hentries Hfinal]. subst final.
  destruct front as [|f front].
  - cbn in Hlast. inversion Hlast; subst e later.
    rewrite app_nil_r in Hentries. subst earlier. split; assumption.
  - cbn in Hlast. inversion Hlast; subst f later.
    apply (Hall earlier e front). symmetry. exact Hentries.
Qed.

Lemma prefix_of_snoc {A : Type} (entries p s : list A) (x : A) :
  (entries ++ [x] = p ++ s)%list ->
  (s = [] /\ p = entries ++ [x])%list
  \/ exists s', s = (s' ++ [x])%list /\ entries = (p ++ s')%list.
Proof.
  intro Heq. destruct s as [|y s] using rev_ind.
  - left. rewrite app_nil_r in Heq. split; [reflexivity | symmetry; exact Heq].
  - right. clear IHs. rewrite app_assoc in Heq. apply app_inj_tail in Heq.
    destruct Heq as [H1 H2]. subst y. exists s. split; [reflexivity | exact H1].
Qed.

Section RunFacts.
Context `{crypto : Crypto} `{promptBuilder : PromptBuilder}.
Variable env : Env.
Variable world : World.
Variable generation : SpriteGeneration.

Lemma ceiling_le_configured model : (ceilingFor env model <= configuredMaxAttempts env)%nat.
Proof. unfold ceilingFor. apply Nat.le_min_r. Qed.

Lemma ceiling_le_fallback model : (ceilingFor env model <= ceilingFor env MODEL_ACCESS_FALLBACK)%nat.
Proof.
  unfold ceilingFor. rewrite fallback_profile_attempts.
  pose proof (profile_attempts_bounds model). lia.
Qed.


Lemma attemptBody_blocked attempt st tr :
  budgetBlocks generation attempt st = true ->
  attemptBody env world generation attempt st tr = StepBreak (setStopReason token_budget (attemptStart generation attempt st)) tr.
Proof.
  unfold budgetBlocks, attemptCostOf, attemptBody, attemptStart.
  cbn [remainingBudgetUsd beginAttempt activeModel promptForAttempt].
  destruct (Qleb (remainingBudgetUsd st) 0); [reflexivity|].
  cbn [orb]. intros ->. reflexivity.
Qed.

Lemma attemptBody_cases attempt st tr :
  budgetBlocks generation attempt st = false ->
  exists st2 tr2,
    prepared env (attemptStart generation attempt st) tr st2 tr2
    /\ ((exists e, attemptBody env world generation attempt st tr = StepThrow e st2 tr2)
        \/ (exists usage j, attemptBody env world generation attempt st tr = settle generation attempt usage j st2 tr2)).
Proof.
  unfold budgetBlocks, attemptCostOf. intro Hb.
  apply orb_false_elim in Hb. destruct Hb as [Hb1 Hb2].
  unfold attemptBody. fold (attemptStart generation attempt st).
  set (st1 := attemptStart generation attempt st) in *.
  assert (Hr : remainingBudgetUsd st1 = remainingBudgetUsd st) by reflexivity.
  assert (Hm : activeModel st1 = activeModel st) by reflexivity.
  rewrite Hr, Hb1, Hm, Hb2.
  set (io := attemptIO world attempt).
  set (raw := generateRawImage (promptForAttempt st1) (activeModel st) (io_reply io)
                (io_fallbackReply io)).
  pose proof (generateRawImage_requests (promptForAttempt st1) (activeModel st)
                (io_reply io) (io_fallbackReply io)) as Hreq. fold raw in Hreq.
  assert (Hsame : forall s, sameVerdict s s) by (intro s; repeat split).
  destruct (rawResult raw) as [e|image] eqn:Eraw.
  - exists st1, (addRequests (requestsIssued raw) tr). split.
    + repeat split; cbn; try lia. left. split; reflexivity.
    + left. exists e. reflexivity.
  - pose proof (generateRawImage_model _ _ _ _ _ Eraw) as Hmodel.
    set (switched := negb (String.eqb (modelUsed image) (activeModel st))).
    set (st2 := if switched then adoptModel env (modelUsed image) st1 else st1).
    assert (Hv : sameVerdict st1 st2).
    { unfold st2. destruct switched; repeat split. }
    assert (Hstep : modelStep env st1 st2).
    { unfold st2, switched. destruct (String.eqb (modelUsed image) (activeModel st)) eqn:E.
      - left. split; reflexivity.
      - destruct Hmodel as [Hmodel|Hmodel].
        + rewrite Hmodel, String.eqb_refl in E. discriminate.
        + right. cbn. rewrite Hmodel. split; reflexivity. }
    destruct (if switched then io_persistModel io else None) as [e|] eqn:Epersist.
    + exists st2, (addRequests (requestsIssued raw) tr). split.
      * repeat split; try apply Hv; try exact Hstep; cbn; lia.
      * left. exists e. reflexivity.
    + set (tr2 := if switched
                  then withRow (rowModel (activeModel st2) (row (addRequests (requestsIssued raw) tr)))
                         (addRequests (requestsIssued raw) tr)
                  else addRequests (requestsIssued raw) tr).
      set (st3 := setUsage (inputTokens st2 + tu_inputTokens (tokenUsage image))%Z
                    (outputTokens st2 + tu_outputTokens (tokenUsage image))%Z
                    (totalTokens st2 + tu_totalTokens (tokenUsage image))%Z
                    (Qmax 0 (remainingBudgetUsd st2
                             - estimateCostUsd (modelUsed image)
                                 (tu_inputTokens (tokenUsage image))
                                 (tu_outputTokens (tokenUsage image)))%Q) st2).
      exists st3, tr2. split.
      * destruct Hv as (H1 & H2 & H3 & H4 & H5 & H6 & H7).
        split; [repeat split; cbn; assumption|].
        split; [destruct Hstep as [[Ha Hb]|[Ha Hb]]; [left|right]; split; cbn; assumption|].
        unfold tr2. destruct switched; cbn; split; try reflexivity; lia.
      * destruct (io_pipeline io) as [e|stabilized slots repaired].
        -- left. exists e. reflexivity.
        -- right. exists (tokenUsage image), (judge env generation stabilized slots repaired).
           reflexivity.
Qed.

Lemma settle_unfold attempt usage j st tr :
  settle generation attempt usage j st tr =
  let st' := judgedState attempt usage j st in
  let tr' := addLog (logOf attempt usage j st) tr in
  if match stopReason st' with None => true | Some _ => false end
     && isStalledOf attempt usage j st && (2 <=? failureStallCount st')%nat
  then StepBreak (setStopReason quality_stagnation st') tr'
  else if Quality.ok (j_quality j) && passed (j_settings j)
  then StepBreak
         (setAccepted (j_buffer j) (c_qualityWarnings (candidateOf attempt usage j))
            (j_settings j) (Quality.diagnostics (j_quality j)) attempt st') tr'
  else if (attempt <? maxAttempts st')%nat
  then StepContinue
         (setPrompt
            (buildQualityCorrectionPrompt (g_prompt generation) (attempt + 1)%nat
               (maxAttempts st') (c_qualityWarnings (candidateOf attempt usage j))
               (isCorrectionCompact st') (correctionIssueLimit st')) st') tr'
  else StepContinue st' tr'.
Proof. reflexivity. Qed.

(** The induction principle of the attempt loop: [P] holds at the head
    of every iteration, [Q] when the loop is left or throws. *)
Lemma attemptLoop_rule (P : nat -> LoopState -> Trace -> Prop) (Q : LoopState -> Trace -> Prop) :
  (forall a st tr, P a st tr -> (a <=? maxAttempts st)%nat = false -> Q st tr) ->
  (forall a st tr, P a st tr -> (a <=? maxAttempts st)%nat = true ->
     match attemptBody env world generation a st tr with
     | StepBreak st' tr' => Q st' tr'
     | StepContinue st' tr' => P (S a) st' tr'
     | StepThrow _ st' tr' => Q st' tr'
     end) ->
  forall fuel a st tr, P a st tr ->
    match attemptLoop env world generation fuel a st tr with
    | LoopFinished st' tr' => Q st' tr'
    | LoopThrew _ st' tr' => Q st' tr'
    | LoopOutOfFuel => True
    end.
Proof.
  intros Hexit Hstep. induction fuel as [|fuel IH]; intros a st tr HP; cbn [attemptLoop].
  - destruct (a <=? maxAttempts st)%nat eqn:E; [exact I | eapply Hexit; eauto].
  - destruct (a <=? maxAttempts st)%nat eqn:E; [|eapply Hexit; eauto].
    specialize (Hstep a st tr HP E).
    destruct (attemptBody env world generation a st tr) as [st' tr'|st' tr'|e st' tr'].
    + exact Hstep.
    + apply IH, Hstep.
    + exact Hstep.
Qed.

Lemma settledFrom_refl st tr : settledFrom st tr st tr.
Proof. repeat split. Qed.

Lemma publish_settled st0 tr0 st1 tr1 :
  settledFrom st0 tr0 st1 tr1 ->
  match publish world generation st1 tr1 with
  | TryReturned _ st tr => settledFrom st0 tr0 st tr
  | TryThrew _ st tr => settledFrom st0 tr0 st tr
  end.
Proof.
  intro H. unfold publish.
  destruct (match settingsVerification st1 with
            | Some v => inr v
            | None => match reverify world with
                      | inl e => inl e
                      | inr facts => inr (verify generation facts)
                      end
            end) as [e|v]; [exact H|].
  destruct (negb (passed v)).
  - destruct (persistFailed world); [exact H|]. exact H.
  - destruct (uploadImage world); [exact H|].
    destruct (persistCompleted world); [exact H|].
    destruct (cacheSet world); exact H.
Qed.

Lemma reject_settled st0 tr0 :
  match reject world generation st0 tr0 with
  | TryReturned _ st tr => settledFrom st0 tr0 st tr
  | TryThrew _ st tr => settledFrom st0 tr0 st tr
  end.
Proof.
  unfold reject. destruct (persistFailed world); repeat split.
Qed.

Lemma finalize_settled st0 tr0 :
  match finalize env world generation st0 tr0 with
  | TryReturned _ st tr => settledFrom st0 tr0 st tr
  | TryThrew _ st tr => settledFrom st0 tr0 st tr
  end.
Proof.
  unfold finalize. destruct (finalBuffer st0).
  - apply publish_settled, settledFrom_refl.
  - destruct (bestCandidate st0) as [b|] eqn:Eb; [|apply reject_settled].
    match goal with |- context [if ?c then _ else _] => destruct c end.
    + apply publish_settled. repeat split.
    + apply reject_settled.
Qed.

Lemma judgedState_frame attempt usage j st :
  activeModel (judgedState attempt usage j st) = activeModel st
  /\ maxAttempts (judgedState attempt usage j st) = maxAttempts st
  /\ attemptsExecuted (judgedState attempt usage j st) = attemptsExecuted st
  /\ stopReason (judgedState attempt usage j st) = stopReason st
  /\ bestCandidate (judgedState attempt usage j st)
     = Some (nextBest (bestCandidate st) (candidateOf attempt usage j)).
Proof.
  unfold judgedState. destruct (isFailureOf j); repeat split.
Qed.

(** The shape of what [settle] returns: the judged locals, possibly with
    a stop reason, an accepted sheet or a new prompt, and one more entry
    in the history. *)
Lemma settle_shape attempt usage j st tr :
  exists st',
    (settle generation attempt usage j st tr
       = StepBreak st' (addLog (logOf attempt usage j st) tr)
     \/ settle generation attempt usage j st tr
       = StepContinue st' (addLog (logOf attempt usage j st) tr))
    /\ activeModel st' = activeModel st
    /\ maxAttempts st' = maxAttempts st
    /\ attemptsExecuted st' = attemptsExecuted st
    /\ bestCandidate st'
       = Some (nextBest (bestCandidate st) (candidateOf attempt usage j)).
Proof.
  rewrite settle_unfold. cbv zeta.
  destruct (judgedState_frame attempt usage j st) as (H1 & H2 & H3 & H4 & H5).
  match goal with |- context [if ?c then StepBreak _ _ else _] => destruct c end.
  { eexists. split; [left; reflexivity|]. cbn. auto. }
  match goal with |- context [if ?c then StepBreak _ _ else _] => destruct c end.
  { eexists. split; [left; reflexivity|]. cbn. auto. }
  match goal with |- context [if ?c then StepContinue _ _ else _] => destruct c end.
  - eexists. split; [right; reflexivity|]. cbn. auto.
  - eexists. split; [right; reflexivity|]. auto.
Qed.

Lemma attemptBody_ceiling attempt st tr :
  atLoopHead env attempt st -> (attempt <=? maxAttempts st)%nat = true ->
  match attemptBody env world generation attempt st tr with
  | StepBreak st' _ => ceilingResolved env st'
  | StepContinue st' _ => atLoopHead env (S attempt) st'
  | StepThrow _ st' _ => ceilingResolved env st'
  end.
Proof.
  intros [[Hc Hle] Ha] Hin. apply Nat.leb_le in Hin.
  destruct (budgetBlocks generation attempt st) eqn:Eb.
  - rewrite attemptBody_blocked by exact Eb. split; cbn; [exact Hc | lia].
  - destruct (attemptBody_cases attempt st tr Eb) as (st2 & tr2 & Hprep & Hout).
    destruct Hprep as (Hv & Hstep & _ & _).
    destruct Hv as (_ & _ & _ & _ & _ & _ & Hexec).
    unfold attemptStart in Hexec, Hstep.
    cbn [attemptsExecuted beginAttempt] in Hexec.
    assert (H2 : ceilingResolved env st2).
    { destruct Hstep as [[Hm Hx]|[Hm Hx]];
        cbn [activeModel maxAttempts beginAttempt] in Hm, Hx; split.
      - rewrite Hx, Hm. exact Hc.
      - rewrite Hexec, Hx. exact Hin.
      - rewrite Hx, Hm. reflexivity.
      - rewrite Hexec, Hx. pose proof (ceiling_le_fallback (activeModel st)). lia. }
    destruct Hout as [[e He]|(usage & j & Hs)].
    + rewrite He. exact H2.
    + rewrite Hs.
      destruct (settle_shape attempt usage j st2 tr2) as (st' & Hshape & Hm & Hx & He & _).
      destruct H2 as [H2a H2b].
      assert (H3 : ceilingResolved env st').
      { split; [rewrite Hx, Hm; exact H2a | rewrite He, Hx; exact H2b]. }
      destruct Hshape as [-> | ->]; [exact H3|].
      split; [exact H3|]. rewrite He, Hexec. reflexivity.
Qed.


(** The loop never needs more than [configuredMaxAttempts] iterations. *)
Lemma attemptLoop_fuel fuel attempt st tr :
  atLoopHead env attempt st ->
  (configuredMaxAttempts env + 1 <= fuel + attempt)%nat ->
  attemptLoop env world generation fuel attempt st tr <> LoopOutOfFuel.
Proof.
  revert attempt st tr. induction fuel as [|fuel IH]; intros a st tr Hh Hf; cbn [attemptLoop].
  - destruct (a <=? maxAttempts st)%nat eqn:E; [|discriminate].
    apply Nat.leb_le in E. destruct Hh as [[Hc _] _].
    pose proof (ceiling_le_configured (activeModel st)). lia.
  - destruct (a <=? maxAttempts st)%nat eqn:E; [|discriminate].
    pose proof (attemptBody_ceiling a st tr Hh E) as Hb.
    destruct (attemptBody env world generation a st tr) as [st' tr'|st' tr'|e st' tr'];
      try discriminate.
    apply IH; [exact Hb | lia].
Qed.

Lemma initial_atLoopHead : atLoopHead env 1 (initialState env generation).
Proof.
  split; [split|]; cbn; try reflexivity. lia.
Qed.

Lemma tryBlock_total : tryBlock env world generation (startTrace generation) <> None.
Proof.
  unfold tryBlock.
  pose proof (attemptLoop_fuel (configuredMaxAttempts env) 1 (initialState env generation)
                (startTrace generation) initial_atLoopHead) as H.
  destruct (attemptLoop env world generation (configuredMaxAttempts env) 1
              (initialState env generation) (startTrace generation));
    try discriminate.
  exfalso. apply H; [lia | reflexivity].
Qed.

(** Every run that went past the first update ends its loop, and the
    decision that follows keeps the verdict of the loop. *)
Lemma processGeneration_loop_end rr st tr :
  findUnique world = Some generation ->
  processGeneration env world = Some rr ->
  lastState rr = Some st -> trace rr = Some tr ->
  exists st0 tr0, loopEndsWith env world generation st0 tr0 /\ settledFrom st0 tr0 st tr.
Proof.
  intros Hfind Hrun Hst Htr. unfold processGeneration in Hrun. rewrite Hfind in Hrun.
  destruct (markProcessing world) as [e|].
  { inversion Hrun; subst rr. discriminate Hst. }
  fold (startTrace generation) in Hrun.
  unfold tryBlock, loopEndsWith in *.
  destruct (attemptLoop env world generation (configuredMaxAttempts env) 1
              (initialState env generation) (startTrace generation))
    as [st0 tr0|e st0 tr0|] eqn:Eloop; [| |discriminate Hrun].
  - exists st0, tr0. split; [left; reflexivity|].
    pose proof (finalize_settled st0 tr0) as Hfin.
    destruct (finalize env world generation st0 tr0) as [status st1 tr1|e st1 tr1].
    + inversion Hrun; subst rr. cbn in Hst, Htr. inversion Hst; inversion Htr; subst.
      exact Hfin.
    + destruct (recordFailure world); inversion Hrun; subst rr; cbn in Hst, Htr;
        inversion Hst; inversion Htr; subst; [exact Hfin|].
      destruct Hfin as (H1 & H2 & H3 & H4 & H5 & H6 & H7 & H8). repeat split; assumption.
  - exists st0, tr0. split; [right; exists e; reflexivity|].
    destruct (recordFailure world); inversion Hrun; subst rr; cbn in Hst, Htr;
      inversion Hst; inversion Htr; subst; repeat split.
Qed.








Lemma lastFailing_nonempty entries p : lastFailing entries = Some p -> entries <> [].
Proof. destruct entries; [discriminate|]. intros _. discriminate. Qed.

(** Under the head invariant, the local [isStalled] is the stalled
    failure of the claim. *)
Lemma isStalledOf_spec attempt usage j st tr :
  stallHead attempt st tr ->
  isStalledOf attempt usage j st
  = stalledAgainst (lastFailing (history tr)) (logOf attempt usage j st).
Proof.
  intros (Ha & _ & _ & _ & Hsig & Hscore & _).
  unfold isStalledOf, stalledAgainst. rewrite Hsig, Hscore.
  change (failing (logOf attempt usage j st)) with (isFailureOf j).
  destruct (lastFailing (history tr)) as [p|] eqn:Ep; cbn [option_map].
  - assert (Hgt : (1 <? attempt)%nat = true).
    { apply Nat.ltb_lt. pose proof (lastFailing_nonempty _ _ Ep) as Hne.
      destruct (history tr); [contradiction Hne; reflexivity|]. cbn in Ha. lia. }
    rewrite Hgt, andb_true_r, <- andb_assoc. reflexivity.
  - rewrite !andb_false_r. reflexivity.
Qed.

Lemma judgedState_stall attempt usage j st :
  failureStallCount (judgedState attempt usage j st)
  = (if isStalledOf attempt usage j st then S (failureStallCount st) else 0%nat)
  /\ lastFailureSignature (judgedState attempt usage j st)
     = (if isFailureOf j then Some (c_warningSignature (candidateOf attempt usage j)) else None)
  /\ lastFailureScore (judgedState attempt usage j st)
     = (if isFailureOf j then Some (c_qualityScore (candidateOf attempt usage j)) else None).
Proof.
  unfold judgedState, isStalledOf.
  destruct (isFailureOf j); cbn [andb]; repeat split.
  cbn [failureStallCount setJudgement].
  match goal with |- context [if ?c then _ else _] => destruct c end;
    [rewrite Nat.add_1_r|]; reflexivity.
Qed.

Lemma settle_stall attempt usage j st tr :
  stallHead attempt st tr ->
  match settle generation attempt usage j st tr with
  | StepBreak st' tr' | StepThrow _ st' tr' => stallEnd st' tr'
  | StepContinue st' tr' => stallHead (S attempt) st' tr'
  end.
Proof.
  intro Hhead. pose proof (isStalledOf_spec attempt usage j st tr Hhead) as Hstalled.
  destruct Hhead as (Ha & Hstop & Hflags & Hcount & Hsig & Hscore & Hbelow).
  destruct (judgedState_frame attempt usage j st) as (_ & _ & _ & Hstop' & _).
  destruct (judgedState_stall attempt usage j st) as (Hcount' & Hsig' & Hscore').
  set (entry := logOf attempt usage j st) in *.
  set (h := history tr) in *.
  assert (Hflags' : flagsAgree (h ++ [entry])).
  { apply flagsAgree_snoc; [exact Hflags | reflexivity | exact Hstalled]. }
  assert (Hnew : failureStallCount (judgedState attempt usage j st)
                 = stallCounterAfter (h ++ [entry])).
  { rewrite Hcount', stallCounterAfter_snoc, <- Hstalled, Hcount. reflexivity. }
  assert (Hstrict : forall p s, (h ++ [entry] = p ++ s)%list -> s <> [] ->
                                (stallCounterAfter p < 2)%nat).
  { intros p s Heq Hne. destruct (prefix_of_snoc _ _ _ _ Heq) as [[Hs _]|(s' & _ & Hh)].
    - contradiction.
    - eapply Hbelow. exact Hh. }
  rewrite settle_unfold. cbv zeta. fold entry. rewrite Hstop', Hstop. cbn [andb].
  destruct (isStalledOf attempt usage j st && (2 <=? failureStallCount (judgedState attempt usage j st))%nat)
    eqn:Etest.
  { (* quality_stagnation *)
    apply andb_prop in Etest. destruct Etest as [_ Etest]. apply Nat.leb_le in Etest.
    split; [exact Hflags'|]. split; [exact Hnew|]. split; [|exact Hstrict].
    cbn [stopReason setStopReason history addLog]. fold h. rewrite <- Hnew.
    split; [intros _; exact Etest | reflexivity]. }
  assert (Hlow : (stallCounterAfter (h ++ [entry]) < 2)%nat).
  { rewrite <- Hnew. apply andb_false_iff in Etest. destruct Etest as [E|E].
    - rewrite Hcount', E. lia.
    - apply Nat.leb_gt in E. exact E. }
  destruct (Quality.ok (j_quality j) && passed (j_settings j)) eqn:Eok.
  { (* accepted *)
    split; [exact Hflags'|]. split; [exact Hnew|]. split; [|exact Hstrict].
    cbn [stopReason setAccepted history addLog]. fold h. rewrite Hstop', Hstop.
    split; [discriminate | intro H2; lia]. }
  assert (Hfail : isFailureOf j = true).
  { unfold isFailureOf. apply andb_false_iff in Eok.
    destruct Eok as [-> | ->]; cbn; [reflexivity | apply orb_true_r]. }
  assert (Hhead' : forall st',
             stopReason st' = stopReason (judgedState attempt usage j st) ->
             failureStallCount st' = failureStallCount (judgedState attempt usage j st) ->
             lastFailureSignature st' = lastFailureSignature (judgedState attempt usage j st) ->
             lastFailureScore st' = lastFailureScore (judgedState attempt usage j st) ->
             stallHead (S attempt) st' (addLog entry tr)).
  { intros st' E1 E2 E3 E4. unfold stallHead. cbn [history addLog]. fold h.
    rewrite E1, E2, E3, E4, Hstop', Hstop, Hsig', Hscore', Hfail, lastFailing_snoc.
    change (failing entry) with (isFailureOf j). rewrite Hfail. cbn [option_map].
    split; [rewrite length_app; cbn [List.length]; lia|].
    split; [reflexivity|]. split; [exact Hflags'|]. split; [exact Hnew|].
    split; [reflexivity|]. split; [reflexivity|].
    intros p s Heq. destruct (prefix_of_snoc _ _ _ _ Heq) as [[_ Hp]|(s' & _ & Hh)].
    - rewrite Hp. exact Hlow.
    - eapply Hbelow. exact Hh. }
  destruct (attempt <? maxAttempts (judgedState attempt usage j st))%nat;
    apply Hhead'; reflexivity.
Qed.

Lemma stallHead_end attempt st tr : stallHead attempt st tr -> stallEnd st tr.
Proof.
  intros (_ & Hstop & Hflags & Hcount & _ & _ & Hbelow).
  split; [exact Hflags|]. split; [exact Hcount|]. split.
  - rewrite Hstop. split; [discriminate|].
    intro H2. pose proof (Hbelow (history tr) [] (eq_sym (app_nil_r _))). lia.
  - intros p s Heq _. eapply Hbelow, Heq.
Qed.

Lemma attemptBody_stall attempt st tr :
  stallHead attempt st tr ->
  match attemptBody env world generation attempt st tr with
  | StepBreak st' tr' | StepThrow _ st' tr' => stallEnd st' tr'
  | StepContinue st' tr' => stallHead (S attempt) st' tr'
  end.
Proof.
  intro Hhead.
  destruct (budgetBlocks generation attempt st) eqn:Eb.
  - rewrite attemptBody_blocked by exact Eb.
    destruct Hhead as (_ & Hstop & Hflags & Hcount & _ & _ & Hbelow).
    split; [exact Hflags|]. split; [exact Hcount|]. split.
    + cbn [stopReason setStopReason]. split; [discriminate|].
      intro H2. pose proof (Hbelow (history tr) [] (eq_sym (app_nil_r _))). lia.
    + intros p s Heq _. eapply Hbelow, Heq.
  - destruct (attemptBody_cases attempt st tr Eb) as (st2 & tr2 & Hprep & Hout).
    destruct Hprep as (Hv & _ & Hhist & _).
    destruct Hv as (_ & Hsig & Hscore & Hcount & Hstop & _ & _).
    unfold attemptStart in Hsig, Hscore, Hcount, Hstop.
    cbn [lastFailureSignature lastFailureScore failureStallCount stopReason beginAttempt]
      in Hsig, Hscore, Hcount, Hstop.
    assert (Hhead2 : stallHead attempt st2 tr2).
    { unfold stallHead in *. rewrite Hhist, Hsig, Hscore, Hcount, Hstop. exact Hhead. }
    destruct Hout as [[e He]|(usage & j & Hs)].
    + rewrite He. eapply stallHead_end, Hhead2.
    + rewrite Hs. apply settle_stall, Hhead2.
Qed.

Lemma attemptLoop_stall fuel attempt st tr :
  stallHead attempt st tr ->
  match attemptLoop env world generation fuel attempt st tr with
  | LoopFinished st' tr' | LoopThrew _ st' tr' => stallEnd st' tr'
  | LoopOutOfFuel => True
  end.
Proof.
  intro Hhead.
  pose proof (attemptLoop_rule stallHead stallEnd) as Hrule.
  apply Hrule; [| |exact Hhead]; clear.
  - intros a st tr H _. eapply stallHead_end, H.
  - intros a st tr H _. pose proof (attemptBody_stall a st tr H) as Hb.
    destruct (attemptBody env world generation a st tr); exact Hb.
Qed.

Lemma initial_stallHead : stallHead 1 (initialState env generation) (startTrace generation).
Proof.
  unfold stallHead. cbn [history startTrace withRow stopReason failureStallCount
    lastFailureSignature lastFailureScore initialState List.length lastFailing option_map].
  split; [reflexivity|]. split; [reflexivity|]. split; [apply flagsAgree_nil|].
  split; [reflexivity|]. split; [reflexivity|]. split; [reflexivity|].
  intros p s Heq. symmetry in Heq. apply app_eq_nil in Heq. destruct Heq as [-> _].
  cbn. lia.
Qed.

End RunFacts.

(** [processGeneration] always ends: the attempt loop never asks for more
    iterations than [configuredMaxAttempts]. *)
Lemma processGeneration_total `{Crypto} `{PromptBuilder} (env : Env) (world : World) :
  processGeneration env world <> None.
Proof.
  unfold processGeneration.
  destruct (findUnique world) as [generation|]; [|discriminate].
  destruct (markProcessing world); [discriminate|].
  pose proof (tryBlock_total env world generation) as Htotal.
  unfold startTrace in Htotal.
  destruct (tryBlock env world generation _) as [[status st tr|e st tr]|];
    [discriminate| |contradiction].
  destruct (recordFailure world); discriminate.
Qed.






Lemma slice0_nonempty (s : string) :
  s <> "" -> JsString.slice0 500 s <> "".
Proof.
  destruct s as [|c rest]; [intro H; contradiction H; reflexivity|].
  intros _. unfold JsString.slice0. cbn. discriminate.
Qed.

(** C7, as the code has it.  When a run raises [e] although the update
    to [PROCESSING], the hydration of the response and the update of the
    [catch] block all succeed, then [e] was thrown inside the [try] block,
    and the row is [FAILED] with an error reason equal to the first 500
    characters of the error's message (of "Generation failed" for a thrown
    value that is no [Error]); that reason is not empty unless the message
    is. *)
Theorem raised_inside_try_is_recorded `{Crypto} `{PromptBuilder} (env : Env) (world : World)
    (rr : RunResult) (e : Thrown) :
  processGeneration env world = Some rr ->
  outcome rr = Raised e ->
  findUnique world <> None ->
  markProcessing world = None ->
  hydrate world = None ->
  recordFailure world = None ->
  exists generation st tr0 tr,
    findUnique world = Some generation
    /\ tryBlock env world generation (startTrace generation) = Some (TryThrew e st tr0)
    /\ trace rr = Some tr
    /\ g_status (row tr) = FAILED
    /\ g_errorReason (row tr) = Some (JsString.slice0 500 (reasonOf e))
    /\ (isError e = true -> reasonOf e = message e)
    /\ (reasonOf e <> "" -> g_errorReason (row tr) <> Some "").
Proof.
  intros Hrun Hout Hfound Hmark Hhydrate Hrecord.
  unfold processGeneration in Hrun.
  destruct (findUnique world) as [generation|]; [|contradiction Hfound; reflexivity].
  rewrite Hmark in Hrun. fold (startTrace generation) in Hrun.
  destruct (tryBlock env world generation (startTrace generation))
    as [[status st tr1|e1 st tr1]|] eqn:Etry; [| |discriminate Hrun].
  - rewrite Hhydrate in Hrun. inversion Hrun; subst rr. discriminate Hout.
  - rewrite Hrecord in Hrun. inversion Hrun; subst rr. cbn in Hout.
    inversion Hout; subst e1.
    exists generation, st, tr1. eexists.
    split; [reflexivity|]. split; [exact Etry|]. split; [reflexivity|].
    cbn. split; [reflexivity|]. split; [reflexivity|]. split.
    + intro Hi. unfold reasonOf. rewrite Hi. reflexivity.
    + intros Hne Heq. inversion Heq as [Hs]. exact (slice0_nonempty _ Hne Hs).
Qed.

(** Witness of [raised_inside_try_is_recorded]: the fallback sample run,
    whose second attempt is refused by the backend. *)
Lemma raised_inside_try_is_recorded_witness :
  exists rr e generation st tr0 tr,
    processGeneration sampleEnv fallbackWorld = Some rr
    /\ outcome rr = Raised e
    /\ findUnique fallbackWorld = Some generation
    /\ tryBlock sampleEnv fallbackWorld generation (startTrace generation)
       = Some (TryThrew e st tr0)
    /\ trace rr = Some tr
    /\ g_status (row tr) = FAILED
    /\ g_errorReason (row tr) = Some (JsString.slice0 500 (reasonOf e))
    /\ (isError e = true -> reasonOf e = message e)
    /\ (reasonOf e <> "" -> g_errorReason (row tr) <> Some "").
Proof.
  let v := eval vm_compute in (processGeneration sampleEnv fallbackWorld) in
  match v with
  | Some ?rr =>
      match eval vm_compute in (outcome rr) with
      | Raised ?e =>
          assert (Hrun : processGeneration sampleEnv fallbackWorld = Some rr)
            by (vm_compute; reflexivity);
          assert (Hout : outcome rr = Raised e) by reflexivity;
          assert (Hfound : findUnique fallbackWorld <> None) by discriminate;
          destruct (raised_inside_try_is_recorded sampleEnv fallbackWorld rr e Hrun Hout
                      Hfound eq_refl eq_refl eq_refl)
            as (generation & st & tr0 & tr & H1 & H2 & H3 & H4 & H5 & H6 & H7);
          exists rr, e, generation, st, tr0, tr
      end
  end.
  repeat split; assumption.
Defined.

(** C7, counterexample: the update that marks the row as processing
    precedes the [try] block; when the database rejects it, the error
    escapes although the row was found, and the row stays [PENDING]
    without an error reason. *)
Lemma failure_before_try_not_recorded :
  findUnique brokenWorld = Some sampleGeneration
  /\ (exists rr tr,
        processGeneration sampleEnv brokenWorld = Some rr
        /\ outcome rr = Raised databaseError
        /\ trace rr = Some tr
        /\ g_status (row tr) = PENDING
        /\ g_errorReason (row tr) = None)
  /\ ~ (forall rr e,
          processGeneration sampleEnv brokenWorld = Some rr ->
          outcome rr = Raised e ->
          exists tr, trace rr = Some tr /\ g_status (row tr) = FAILED).
Proof.
  split; [reflexivity|]. split.
  - eexists. eexists. split; [vm_compute; reflexivity|]. repeat split.
  - intro Hall.
    destruct (processGeneration sampleEnv brokenWorld) as [rr|] eqn:Hrun;
      [|discriminate Hrun].
    destruct (Hall rr databaseError eq_refl) as (tr & Htr & Hstatus).
    + vm_compute in Hrun. inversion Hrun. reflexivity.
    + vm_compute in Hrun. inversion Hrun; subst rr. cbn in Htr. inversion Htr; subst tr.
      discriminate Hstatus.
Qed.




(** C2. In every run: an attempt counts as a failure exactly when the
    quality gate or the settings verification rejected it; an attempt is
    stalled exactly when it fails with the warning signature of the prior
    failing attempt and a quality score at most 0.75 above that attempt's;
    the stall counter is the one that a stalled failure increments and any
    other attempt resets; the stop reason is [quality_stagnation] exactly
    when that counter reached two, and it never reaches two before the last
    attempt, so the loop stops on the second of two consecutive stalled
    failures. *)
Theorem stagnation_stop `{Crypto} `{PromptBuilder} (env : Env) (world : World)
    (rr : RunResult) (st : LoopState) (tr : Trace) :
  processGeneration env world = Some rr ->
  lastState rr = Some st -> trace rr = Some tr ->
  flagsAgree (history tr)
  /\ failureStallCount st = stallCounterAfter (history tr)
  /\ (stopReason st = Some quality_stagnation <-> (2 <= stallCounterAfter (history tr))%nat)
  /\ (forall p s, history tr = (p ++ s)%list -> s <> [] -> (stallCounterAfter p < 2)%nat).
Proof.
  intros Hrun Hst Htr.
  destruct (findUnique world) as [generation|] eqn:Hfind.
  2:{ unfold processGeneration in Hrun. rewrite Hfind in Hrun.
      inversion Hrun; subst rr. discriminate Hst. }
  destruct (processGeneration_loop_end env world generation rr st tr Hfind Hrun Hst Htr)
    as (st0 & tr0 & Hend & Hsettled).
  destruct Hsettled as (_ & Hstop & Hcount & _ & _ & _ & Hhist & _).
  pose proof (attemptLoop_stall env world generation (configuredMaxAttempts env) 1
                (initialState env generation) (startTrace generation)
                (initial_stallHead env generation)) as Hstall.
  assert (Hq : stallEnd st0 tr0).
  { destruct Hend as [Hend|[e Hend]]; rewrite Hend in Hstall; exact Hstall. }
  unfold stallEnd in Hq. rewrite Hstop, Hcount, Hhist. exact Hq.
Qed.

(** Witness of [stagnation_stop]: the steady sample run stops on its
    third attempt, the second stalled failure in a row. *)
Lemma stagnation_stop_witness :
  exists rr st tr,
    processGeneration sampleEnv steadyWorld = Some rr
    /\ lastState rr = Some st /\ trace rr = Some tr
    /\ map log_isStalled (history tr) = [false; true; true]
    /\ stopReason st = Some quality_stagnation
    /\ flagsAgree (history tr)
    /\ failureStallCount st = stallCounterAfter (history tr)
    /\ (stopReason st = Some quality_stagnation
        <-> (2 <= stallCounterAfter (history tr))%nat)
    /\ (forall p s, history tr = (p ++ s)%list -> s <> [] -> (stallCounterAfter p < 2)%nat).
Proof.
  let v := eval vm_compute in (processGeneration sampleEnv steadyWorld) in
  match v with
  | Some ?rr =>
      match eval vm_compute in (lastState rr) with
      | Some ?st =>
          match eval vm_compute in (trace rr) with
          | Some ?tr => exists rr, st, tr
          end
      end
  end.
  assert (Hrun : processGeneration sampleEnv steadyWorld = Some _) by (vm_compute; reflexivity).
  split; [exact Hrun|]. split; [reflexivity|]. split; [reflexivity|].
  split; [reflexivity|]. split; [reflexivity|].
  exact (stagnation_stop sampleEnv steadyWorld _ _ _ Hrun eq_refl eq_refl).
Defined.

End ControllerFacts.

(** ** The request fingerprint and the request cache *)

Module FingerprintFacts.
Import JsNum JsNumFacts Fingerprint FingerprintSpec Controller RequestSpec Samples RequestSamples.
Local Open Scope string_scope.








Lemma find_snoc {A : Type} (f : A -> bool) (l : list A) (x : A) :
  find f (l ++ [x])
  = match find f l with
    | Some y => Some y
    | None => if f x then Some x else None
    end.
Proof.
  induction l as [|y l IH]; cbn; [reflexivity|].
  destruct (f y); [reflexivity | exact IH].
Qed.

Lemma find_none_of {A : Type} (f : A -> bool) (l : list A) :
  (forall y, In y l -> f y = false) -> find f l = None.
Proof.
  induction l as [|y l IH]; intro H; cbn; [reflexivity|].
  rewrite (H y (or_introl eq_refl)). apply IH. intros z Hz. apply H. right. exact Hz.
Qed.

Section Requests.
Context `{crypto : Crypto} `{promptBuilder : PromptBuilder}.
Variable env : Env.

(** What [createGenerationRequest] does with a request that passed the
    daily limit, the prompt validation and the cost pre-check. *)
Lemma createGenerationRequest_admitted store fresh userId role input themePrompt :
  admitted env fresh userId input themePrompt store role ->
  createGenerationRequest env store fresh userId role input
  = match
      match cacheGet store (cacheKey (plannedFingerprint env fresh userId input themePrompt)) with
      | Some cachedGenerationId =>
          match findFirst store cachedGenerationId userId with
          | Some cached => if isFailed (g_status cached) then None else Some cached
          | None => None
          end
      | None => None
      end
    with
    | Some cached => (RequestCached cached, store)
    | None =>
        (RequestCreated (plannedRow env fresh userId input themePrompt),
         {| users := users store;
            generations :=
              (generations store ++ [plannedRow env fresh userId input themePrompt])%list;
            createdToday :=
              fun g => String.eqb (g_id g) (newId fresh) || createdToday store g;
            cache :=
              cachePut (cacheKey (plannedFingerprint env fresh userId input themePrompt))
                (newId fresh) (cache store) |})
    end.
Proof.
  intros (Hlimit & Hprompt & Hcost).
  unfold createGenerationRequest. rewrite Hlimit, Hprompt.
  unfold plannedCost, plannedAttempts, plannedPrompt, plannedModel, plannedSeed,
    plannedColumns, plannedRows in Hcost.
  unfold plannedFingerprint, plannedRow, plannedPrompt, plannedModel, plannedSeed,
    plannedColumns, plannedRows.
  destruct (resolveLayout (in_frameCount input) (in_layout input) (in_columns input))
    as [columns rows].
  cbn [fst snd] in *. rewrite Hcost. reflexivity.
Qed.

Lemma cacheGet_put store key value rest :
  cache store = cachePut key value rest -> cacheGet store key = Some value.
Proof.
  intro H. unfold cacheGet. rewrite H. unfold cachePut. cbn [find fst].
  rewrite String.eqb_refl. reflexivity.
Qed.

(** A request served from the cache leaves the store as it was. *)
Lemma cached_request_served store fresh userId role input themePrompt id cached :
  admitted env fresh userId input themePrompt store role ->
  cacheGet store (cacheKey (plannedFingerprint env fresh userId input themePrompt)) = Some id ->
  findFirst store id userId = Some cached ->
  g_status cached <> FAILED ->
  createGenerationRequest env store fresh userId role input = (RequestCached cached, store).
Proof.
  intros Hadm Hget Hfind Hstatus.
  rewrite (createGenerationRequest_admitted _ _ _ _ _ _ Hadm), Hget, Hfind.
  destruct (g_status cached); try reflexivity. contradiction Hstatus. reflexivity.
Qed.

(** Scenario E: a request with an explicit seed that created a row is
    answered with that row when it is repeated, as long as the repetition
    still passes the daily limit. *)
Lemma repeated_request_served store store1 fresh fresh' userId role input created s :
  in_seed input = Some s ->
  (forall g, In g (generations store) -> g_id g <> newId fresh) ->
  createGenerationRequest env store fresh userId role input = (RequestCreated created, store1) ->
  assertDailyLimit store1 userId role = None ->
  createGenerationRequest env store1 fresh' userId role input = (RequestCached created, store1).
Proof.
  intros Hseed Hfresh Hfirst Hlimit.
  destruct (assertDailyLimit store userId role) as [e|] eqn:Elimit.
  { unfold createGenerationRequest in Hfirst. rewrite Elimit in Hfirst.
    discriminate Hfirst. }
  destruct (validatePromptStructure (in_prompt input)) as [e|themePrompt] eqn:Eprompt.
  { unfold createGenerationRequest in Hfirst. rewrite Elimit, Eprompt in Hfirst.
    discriminate Hfirst. }
  destruct (Qltb (MAX_ESTIMATED_GENERATION_COST_USD env)
              (plannedCost env fresh input themePrompt)) eqn:Hcost.
  { unfold createGenerationRequest in Hfirst. rewrite Elimit, Eprompt in Hfirst.
    unfold plannedCost, plannedAttempts, plannedPrompt, plannedModel, plannedSeed,
      plannedColumns, plannedRows in Hcost.
    destruct (resolveLayout (in_frameCount input) (in_layout input) (in_columns input))
      as [columns rows].
    cbn [fst snd] in Hcost. rewrite Hcost in Hfirst. discriminate Hfirst. }
  assert (Hadm : admitted env fresh userId input themePrompt store role)
    by (repeat split; assumption).
  rewrite (createGenerationRequest_admitted _ _ _ _ _ _ Hadm) in Hfirst.
  match type of Hfirst with
  | match ?hit with _ => _ end = _ => destruct hit as [cached|]
  end; [discriminate Hfirst|].
  injection Hfirst as Hcreated Hstore.
  assert (Hsame : forall f, plannedSeed f input = s).
  { intro f. unfold plannedSeed. rewrite Hseed. reflexivity. }
  assert (Hfp : plannedFingerprint env fresh' userId input themePrompt
                = plannedFingerprint env fresh userId input themePrompt).
  { unfold plannedFingerprint. rewrite !Hsame. reflexivity. }
  assert (Hcost' : plannedCost env fresh' input themePrompt
                   = plannedCost env fresh input themePrompt).
  { unfold plannedCost, plannedPrompt. rewrite !Hsame. reflexivity. }
  assert (Hadm' : admitted env fresh' userId input themePrompt store1 role).
  { split; [exact Hlimit|]. split; [exact Eprompt|]. rewrite Hcost'. exact Hcost. }
  apply (cached_request_served store1 fresh' userId role input themePrompt (newId fresh)).
  - exact Hadm'.
  - rewrite Hfp. eapply cacheGet_put. rewrite <- Hstore. reflexivity.
  - unfold findFirst. rewrite <- Hstore. cbn [generations]. rewrite find_snoc.
    rewrite find_none_of.
    + rewrite <- Hcreated. cbn [g_id g_userId plannedRow]. rewrite !String.eqb_refl.
      reflexivity.
    + intros g Hg. apply andb_false_iff. left. apply String.eqb_neq. apply Hfresh, Hg.
  - rewrite <- Hcreated. discriminate.
Qed.

End Requests.




End FingerprintFacts.

(** ** The pixel passes *)

Module RasterFacts.
Import JsNum JsNumFacts Raster RasterSpec RasterSamples.
Local Open Scope Z_scope.

Lemma in_zrange n i : In i (zrange n) <-> 0 <= i < n.
Proof.
  unfold zrange. rewrite in_map_iff. split.
  - intros (k & <- & Hk). apply in_seq in Hk. lia.
  - intro H. exists (Z.to_nat i). split; [lia|]. apply in_seq. lia.
Qed.

Lemma fold_left_invariant {A B : Type} (P : A -> Prop) (f : A -> B -> A) (l : list B) :
  (forall acc x, In x l -> P acc -> P (f acc x)) ->
  forall init, P init -> P (fold_left f l init).
Proof.
  induction l as [|x l IH]; intros Hstep init Hinit; cbn; [exact Hinit|].
  apply IH.
  - intros acc y Hy. apply Hstep. right. exact Hy.
  - apply Hstep; [left; reflexivity | exact Hinit].
Qed.

(** A property that one turn of a loop establishes and every turn keeps
    holds when the loop is over. *)
Lemma fold_left_established {A B : Type} (Q : A -> Prop) (f : A -> B -> A) (l : list B)
    (e : B) :
  In e l ->
  (forall acc, Q (f acc e)) ->
  (forall acc x, In x l -> Q acc -> Q (f acc x)) ->
  forall init, Q (fold_left f l init).
Proof.
  induction l as [|x l IH]; intros Hin Hest Hkeep init; [destruct Hin|].
  cbn. destruct Hin as [->|Hin].
  - apply fold_left_invariant.
    + intros acc y Hy. apply Hkeep. right. exact Hy.
    + apply Hest.
  - apply IH; [exact Hin | exact Hest |].
    intros acc y Hy. apply Hkeep. right. exact Hy.
Qed.

Lemma forCell_invariant {A : Type} (P : A -> Prop) rowsN colsN (body : A -> Z -> Z -> A) :
  (forall acc localY localX,
      0 <= localY < rowsN -> 0 <= localX < colsN -> P acc -> P (body acc localY localX)) ->
  forall init, P init -> P (forCell rowsN colsN body init).
Proof.
  intros Hstep init Hinit. unfold forCell.
  apply fold_left_invariant; [|exact Hinit].
  intros acc localY Hy Hacc.
  apply fold_left_invariant; [|exact Hacc].
  intros acc' localX Hx Hacc'.
  apply Hstep; [apply in_zrange, Hy | apply in_zrange, Hx | exact Hacc'].
Qed.

Lemma forCell_established {A : Type} (Q : A -> Prop) rowsN colsN (body : A -> Z -> Z -> A)
    y x :
  0 <= y < rowsN -> 0 <= x < colsN ->
  (forall acc, Q (body acc y x)) ->
  (forall acc localY localX,
      0 <= localY < rowsN -> 0 <= localX < colsN -> Q acc -> Q (body acc localY localX)) ->
  forall init, Q (forCell rowsN colsN body init).
Proof.
  intros Hy Hx Hest Hkeep init. unfold forCell.
  apply (fold_left_established Q _ (zrange rowsN) y).
  - apply in_zrange, Hy.
  - intro acc. apply (fold_left_established Q _ (zrange colsN) x).
    + apply in_zrange, Hx.
    + exact Hest.
    + intros acc' localX Hin. apply Hkeep; [exact Hy | apply in_zrange, Hin].
  - intros acc localY Hin Hacc.
    apply fold_left_invariant; [|exact Hacc].
    intros acc' localX Hin'. apply Hkeep; [apply in_zrange, Hin | apply in_zrange, Hin'].
Qed.

(** *** Buffers *)

Lemma length_replaceNth n v l : List.length (replaceNth n v l) = List.length l.
Proof.
  revert n. induction l as [|x l IH]; intros [|n]; cbn; try reflexivity.
  rewrite IH. reflexivity.
Qed.

Lemma nth_error_replaceNth_other n m v l :
  n <> m -> nth_error (replaceNth n v l) m = nth_error l m.
Proof.
  revert n m. induction l as [|x l IH]; intros [|n] [|m] H; cbn; try reflexivity.
  - contradiction H. reflexivity.
  - apply IH. intro E. apply H. rewrite E. reflexivity.
Qed.

Lemma nth_error_replaceNth_same n v l :
  (n < List.length l)%nat -> nth_error (replaceNth n v l) n = Some v.
Proof.
  revert n. induction l as [|x l IH]; intros [|n] H; cbn in *; try lia; [reflexivity|].
  apply IH. lia.
Qed.

Lemma length_setByte output i v : List.length (setByte output i v) = List.length output.
Proof.
  unfold setByte. destruct (i <? 0); [reflexivity | apply length_replaceNth].
Qed.

Lemma byteAt_setByte_other output i j v :
  i <> j -> byteAt (setByte output i v) j = byteAt output j.
Proof.
  intro H. unfold byteAt, setByte.
  destruct (j <? 0) eqn:Ej; [reflexivity|].
  destruct (i <? 0) eqn:Ei; [reflexivity|].
  apply nth_error_replaceNth_other. apply Z.ltb_ge in Ej, Ei. lia.
Qed.

Lemma byteAt_setByte_same output i v :
  0 <= i < Z.of_nat (List.length output) -> byteAt (setByte output i v) i = Some v.
Proof.
  intro H. unfold byteAt, setByte.
  destruct (i <? 0) eqn:Ei; [apply Z.ltb_lt in Ei; lia|].
  apply nth_error_replaceNth_same. lia.
Qed.

Lemma byteAt_in_range data i :
  0 <= i < Z.of_nat (List.length data) -> exists v, byteAt data i = Some v.
Proof.
  intro H. unfold byteAt.
  destruct (i <? 0) eqn:Ei; [apply Z.ltb_lt in Ei; lia|].
  destruct (nth_error data (Z.to_nat i)) as [v|] eqn:E; [exists v; reflexivity|].
  apply nth_error_None in E. lia.
Qed.

Lemma byteAt_out_of_range data i :
  i < 0 \/ Z.of_nat (List.length data) <= i -> byteAt data i = None.
Proof.
  intro H. unfold byteAt.
  destruct (i <? 0) eqn:Ei; [reflexivity|].
  apply Z.ltb_ge in Ei. apply nth_error_None. lia.
Qed.

(** Two buffers with the same sample at every index are the same. *)
Lemma byteAt_ext (a b : list Z) :
  (forall i, byteAt a i = byteAt b i) -> a = b.
Proof.
  intro H. apply nth_error_ext. intro n.
  specialize (H (Z.of_nat n)). unfold byteAt in H.
  destruct (Z.of_nat n <? 0) eqn:E; [apply Z.ltb_lt in E; lia|].
  rewrite Nat2Z.id in H. exact H.
Qed.


End RasterFacts.
